(** * Risk classification of packaging briefs

    A shallow embedding of [src/risk.py] (the deterministic risk step
    [classify_risk : ExtractedBrief -> ReviewDecision]) together with the
    data shapes of [src/schemas.py], and the properties of the classifier.

    Python values are modelled as follows.
    - [str] is [string]; a character is a code point in U+0000..U+00FF, on
      which [str.lower] and [str.strip] are the tables given below.
    - [Literal["low", "medium", "high"]] is the enumeration [Level].
    - [List[..]] is [list]; the set literal [LEGAL_CLAIM_TYPES] is a [gset].
    - The local variables that [classify_risk] assigns and appends to are
      the record [Locals], threaded through one function per [if] block. *)

From Stdlib Require Import Ascii NArith Bool.
From stdpp Require Import base decidable list strings gmap.

Local Open Scope N_scope.

(** ** Python string primitives *)

Module PyStr.

(** [str.lower] on one character: A-Z and the Latin-1 capitals
    U+00C0..U+00DE (without the multiplication sign U+00D7) move up by 32. *)
Definition lower_char (c : ascii) : ascii :=
  let n := N_of_ascii c in
  if ((65 <=? n) && (n <=? 90)) || ((192 <=? n) && (n <=? 222) && negb (n =? 215))
  then ascii_of_N (n + 32)
  else c.

(** [s.lower()] *)
Fixpoint lower (s : string) : string :=
  match s with
  | EmptyString => EmptyString
  | String c s' => String (lower_char c) (lower s')
  end.

(** [c.isspace()]: the characters [str.strip()] removes. *)
Definition is_space (c : ascii) : bool :=
  let n := N_of_ascii c in
  ((9 <=? n) && (n <=? 13)) || ((28 <=? n) && (n <=? 32)) || (n =? 133) || (n =? 160).

(** [s.lstrip()] *)
Fixpoint lstrip (s : string) : string :=
  match s with
  | EmptyString => EmptyString
  | String c s' => if is_space c then lstrip s' else s
  end.

(** [s.rstrip()] *)
Fixpoint rstrip (s : string) : string :=
  match s with
  | EmptyString => EmptyString
  | String c s' =>
      match rstrip s' with
      | EmptyString => if is_space c then EmptyString else String c EmptyString
      | r => String c r
      end
  end.

(** [s.strip()] *)
Definition strip (s : string) : string := rstrip (lstrip s).

(** [s.startswith(x)] *)
Fixpoint startswith (x s : string) : bool :=
  match x, s with
  | EmptyString, _ => true
  | String a x', String b s' => if Ascii.eqb a b then startswith x' s' else false
  | String _ _, EmptyString => false
  end.

(** [x in s] on two strings: [x] occurs in [s] as a contiguous block. *)
Fixpoint contains (x s : string) : bool :=
  startswith x s ||
  match s with
  | EmptyString => false
  | String _ s' => contains x s'
  end.

(** [x in l] on a list of strings: some element equals [x]. *)
Definition in_list (x : string) (l : list string) : bool :=
  existsb (String.eqb x) l.

(** [s or ""]: the empty string is the only falsy [str]. *)
Definition or_empty (s : string) : string :=
  match s with
  | EmptyString => ""
  | _ => s
  end.

(** What [contains] decides: [s = pre ++ x ++ post]. *)
Definition is_substring (x s : string) : Prop :=
  ∃ pre post : string, s = pre +:+ x +:+ post.

End PyStr.

(** ** Data shapes ([src/schemas.py]) *)

Inductive Level : Set := low | medium | high.

Global Instance Level_eq_dec : EqDecision Level.
Proof. solve_decision. Defined.

Module ClaimObject.
Record t : Type := mk {
  raw_text : string;
  normalized_type : string;
  risk_keywords : list string;
  evidence_hint : string;
  severity : Level
}.
End ClaimObject.
Abbreviation ClaimObject := ClaimObject.t.

Module Issue.
Record t : Type := mk {
  type : string;
  message : string;
  severity : Level
}.
End Issue.
Abbreviation Issue := Issue.t.

Module ExtractedBrief.
Record t : Type := mk {
  product_name : string;
  age_grade : string;
  markets : list string;
  claims : list ClaimObject;
  materials : list string;
  licensed : bool;
  notes : option string;
  missing_info : list string;
  clarifying_questions : list string;
  issues : list Issue
}.
End ExtractedBrief.
Abbreviation ExtractedBrief := ExtractedBrief.t.

Module ReviewDecision.
Record t : Type := mk {
  requires_quality_review : bool;
  requires_legal_review : bool;
  requires_licensing_review : bool;
  requires_sustainability_review : bool;
  risk_flags : list string;
  risk_level : Level;
  routing_notes : list string;
  human_approval_required : bool
}.
End ReviewDecision.
Abbreviation ReviewDecision := ReviewDecision.t.

(** ** The risk step ([src/risk.py]) *)

Import PyStr.

Definition MATERIAL_PLASTIC : list string := ["plastic"; "pvc"; "blister"].

Definition UNDER_3_INDICATORS : list string :=
  ["0"; "1"; "2"; "18m"; "24m"; "under 3"; "under three"].

Definition LEGAL_CLAIM_TYPES : gset string :=
  {[ "CHEMICAL_SAFETY_CLAIM"; "SUSTAINABILITY_CLAIM"; "PERFORMANCE_CLAIM"; "SAFETY_CLAIM" ]}.

Definition _age_under_3 (age_grade : string) : bool :=
  let ag := strip (lower (or_empty age_grade)) in
  existsb (fun x => contains x ag) UNDER_3_INDICATORS.

Definition _plastic_present (materials : list string) : bool :=
  existsb (fun m => in_list (strip (lower (or_empty m))) MATERIAL_PLASTIC) materials.

(** The [for] loop with its early [return True]. *)
Fixpoint _claims_need_evidence (claims : list ClaimObject) : bool :=
  match claims with
  | [] => false
  | c :: rest =>
      if bool_decide (ClaimObject.normalized_type c ∈ LEGAL_CLAIM_TYPES)
         || bool_decide (ClaimObject.severity c = high)
      then true
      else _claims_need_evidence rest
  end.

Definition _high_severity_issues (issues : list Issue) : bool :=
  existsb (fun i => bool_decide (Issue.severity i = high)) issues.

(** The local variables of [classify_risk] that the five [if] blocks
    assign or append to. *)
Record Locals : Type := mkLocals {
  requires_quality_review : bool;
  requires_legal_review : bool;
  requires_licensing_review : bool;
  requires_sustainability_review : bool;
  risk_flags : list string;
  routing_notes : list string
}.

(** Lines 36-41: the initial assignments. *)
Definition locals_init : Locals :=
  mkLocals false false false false [] [].

(** [risk_flags.append(flag); routing_notes.append(note)] *)
Definition append_flag (flag note : string) (st : Locals) : Locals :=
  mkLocals (requires_quality_review st) (requires_legal_review st)
           (requires_licensing_review st) (requires_sustainability_review st)
           (risk_flags st ++ [flag]) (routing_notes st ++ [note]).

Definition set_quality (st : Locals) : Locals :=
  mkLocals true (requires_legal_review st)
           (requires_licensing_review st) (requires_sustainability_review st)
           (risk_flags st) (routing_notes st).

Definition set_legal (st : Locals) : Locals :=
  mkLocals (requires_quality_review st) true
           (requires_licensing_review st) (requires_sustainability_review st)
           (risk_flags st) (routing_notes st).

Definition set_licensing (st : Locals) : Locals :=
  mkLocals (requires_quality_review st) (requires_legal_review st)
           true (requires_sustainability_review st)
           (risk_flags st) (routing_notes st).

Definition set_sustainability (st : Locals) : Locals :=
  mkLocals (requires_quality_review st) (requires_legal_review st)
           (requires_licensing_review st) true
           (risk_flags st) (routing_notes st).

(** Truthiness of a list: [bool(l)]. *)
Definition truthy {A} (l : list A) : bool :=
  match l with
  | [] => false
  | _ :: _ => true
  end.

(** Lines 43-46. *)
Definition step_under_3 (brief : ExtractedBrief) (st : Locals) : Locals :=
  if _age_under_3 (ExtractedBrief.age_grade brief)
  then append_flag "under_3" "Age grade under 3: quality review required."
         (set_quality st)
  else st.

(** Lines 48-51. *)
Definition step_licensed (brief : ExtractedBrief) (st : Locals) : Locals :=
  if ExtractedBrief.licensed brief
  then append_flag "licensed_brand" "Licensed product: licensing review required."
         (set_licensing st)
  else st.

(** Lines 53-56. *)
Definition step_claims (brief : ExtractedBrief) (st : Locals) : Locals :=
  if _claims_need_evidence (ExtractedBrief.claims brief)
  then append_flag "claims_need_evidence" "Marketing claims require legal/evidence review."
         (set_legal st)
  else st.

(** Lines 58-61. *)
Definition step_plastic (brief : ExtractedBrief) (st : Locals) : Locals :=
  if _plastic_present (ExtractedBrief.materials brief)
  then append_flag "plastic_present" "Plastic/PVC/blister: sustainability review recommended."
         (set_sustainability st)
  else st.

(** Lines 63-65: [brief.issues and _high_severity_issues(brief.issues)]. *)
Definition step_issues (brief : ExtractedBrief) (st : Locals) : Locals :=
  if truthy (ExtractedBrief.issues brief)
     && _high_severity_issues (ExtractedBrief.issues brief)
  then append_flag "high_severity_issues" "High-severity issues from brief require attention." st
  else st.

(** The five blocks in program order. *)
Definition run_steps (brief : ExtractedBrief) : Locals :=
  step_issues brief
    (step_plastic brief
       (step_claims brief
          (step_licensed brief
             (step_under_3 brief locals_init)))).

(** Lines 67-87: the derived fields and the returned value. *)
Definition finish (st : Locals) : ReviewDecision :=
  let human_approval_required :=
    in_list "under_3" (risk_flags st)
    || in_list "licensed_brand" (risk_flags st)
    || in_list "claims_need_evidence" (risk_flags st) in
  let n_flags := length (risk_flags st) in
  let risk_level :=
    if in_list "under_3" (risk_flags st) || in_list "licensed_brand" (risk_flags st)
    then high
    else if bool_decide (1 ≤ n_flags)%nat then medium
    else low in
  ReviewDecision.mk
    (requires_quality_review st)
    (requires_legal_review st)
    (requires_licensing_review st)
    (requires_sustainability_review st)
    (risk_flags st)
    risk_level
    (routing_notes st)
    human_approval_required.

Definition classify_risk (brief : ExtractedBrief) : ReviewDecision :=
  finish (run_steps brief).

(** ** The golden cases ([tests/test_golden_cases.py]) *)

Definition brief_high : ExtractedBrief :=
  ExtractedBrief.mk "Disney Junior Wooden Blocks" "18m+" ["US"; "UK"; "AU"]
    [ ClaimObject.mk "Non-toxic" "CHEMICAL_SAFETY_CLAIM" ["non-toxic"] "" high;
      ClaimObject.mk "BPA-free" "CHEMICAL_SAFETY_CLAIM" ["bpa"] "" high ]
    ["wood"; "plastic"; "cardboard"] true (Some "") [] [] [].

Definition brief_low : ExtractedBrief :=
  ExtractedBrief.mk "Classic Building Bricks Set" "5+" ["US"; "CA"]
    [ ClaimObject.mk "Compatible with major brands" "OTHER_CLAIM" [] "" low ]
    ["cardboard"] false (Some "") [] [] [].

Definition brief_medium : ExtractedBrief :=
  ExtractedBrief.mk "Eco Stacking Cups" "3+" ["EU"; "UK"]
    [ ClaimObject.mk "Recyclable" "SUSTAINABILITY_CLAIM" ["recyclable"] "" medium;
      ClaimObject.mk "Eco-friendly packaging" "SUSTAINABILITY_CLAIM" ["eco-friendly"] "" medium ]
    ["plastic"; "cardboard"; "blister"] false (Some "") [] [] [].

(** ** Further sample briefs *)

Definition brief_age_0_3 : ExtractedBrief :=
  ExtractedBrief.mk "Stacking Rings" "0-3" ["EU"] [] ["wood"] false None [] [] [].

Definition brief_room_201 : ExtractedBrief :=
  ExtractedBrief.mk "Dollhouse" "Room 201, ages 5+" ["US"] [] ["wood"] false None [] [] [].

Definition brief_plastics : ExtractedBrief :=
  ExtractedBrief.mk "Bath Boat" "5+" ["US"] [] ["plastics"] false None [] [] [].

Definition brief_issue_only : ExtractedBrief :=
  ExtractedBrief.mk "Floor Puzzle" "5+" [] [] ["cardboard"] false None [] []
    [ Issue.mk "MISSING_INFO" "No market given" high ].

Definition brief_advisory : ExtractedBrief :=
  ExtractedBrief.mk "Floor Puzzle" "5+" ["AU"] [] [" PVC "] false None [] []
    [ Issue.mk "AMBIGUOUS_MARKET_REQUIREMENTS" "Market unclear" low;
      Issue.mk "MISSING_INFO" "No materials list" high ].

Definition brief_empty : ExtractedBrief :=
  ExtractedBrief.mk "" "" [] [] [] false None [] [] [].

(** ** Definitions used to state the properties *)

Import ExtractedBrief.

(** The age grade, lowercased and trimmed, contains an under-3 indicator. *)
Definition under_3_match (age_grade : string) : Prop :=
  ∃ x, x ∈ ["0"; "1"; "2"; "18m"; "24m"; "under 3"; "under three"]
       ∧ is_substring x (strip (lower age_grade)).

(** The claim is of a legal claim type, or of high severity. *)
Definition needs_evidence (c : ClaimObject) : Prop :=
  ClaimObject.normalized_type c
    ∈ ["CHEMICAL_SAFETY_CLAIM"; "SUSTAINABILITY_CLAIM"; "PERFORMANCE_CLAIM"; "SAFETY_CLAIM"]
  ∨ ClaimObject.severity c = high.

(** The material, lowercased and trimmed, is one of the plastic family. *)
Definition plastic_material (m : string) : Prop :=
  strip (lower m) ∈ ["plastic"; "pvc"; "blister"].

(** A claim with its type replaced by OTHER_CLAIM unless it is a legal
    claim type. *)
Definition as_other_claim (c : ClaimObject) : ClaimObject :=
  if bool_decide (ClaimObject.normalized_type c ∈ LEGAL_CLAIM_TYPES)
  then c
  else ClaimObject.mk (ClaimObject.raw_text c) "OTHER_CLAIM"
         (ClaimObject.risk_keywords c) (ClaimObject.evidence_hint c)
         (ClaimObject.severity c).

Definition with_claims (brief : ExtractedBrief) (cs : list ClaimObject) : ExtractedBrief :=
  ExtractedBrief.mk (product_name brief) (age_grade brief) (markets brief) cs
    (materials brief) (licensed brief) (notes brief) (missing_info brief)
    (clarifying_questions brief) (issues brief).

(** One decision for a brief none of whose five tests matches. *)
Definition decision_no_flags : ReviewDecision :=
  ReviewDecision.mk false false false false [] low [] false.

(** The flags in the order in which the five blocks run. *)
Definition EVALUATION_ORDER : list string :=
  ["under_3"; "licensed_brand"; "claims_need_evidence"; "plastic_present";
   "high_severity_issues"].

(** Each flag with the routing note its block appends. *)
Definition FLAG_NOTES : list (string * string) :=
  [("under_3", "Age grade under 3: quality review required.");
   ("licensed_brand", "Licensed product: licensing review required.");
   ("claims_need_evidence", "Marketing claims require legal/evidence review.");
   ("plastic_present", "Plastic/PVC/blister: sustainability review recommended.");
   ("high_severity_issues", "High-severity issues from brief require attention.")].

(** *** The decision as a function of the five predicates *)

Definition opt_item (p : bool) (x : string) : list string :=
  if p then [x] else [].

Definition decision_of (p1 p2 p3 p4 p5 : bool) : ReviewDecision :=
  ReviewDecision.mk p1 p3 p2 p4
    (opt_item p1 "under_3" ++ opt_item p2 "licensed_brand"
     ++ opt_item p3 "claims_need_evidence" ++ opt_item p4 "plastic_present"
     ++ opt_item p5 "high_severity_issues")
    (if p1 || p2 then high else if p3 || p4 || p5 then medium else low)
    (opt_item p1 "Age grade under 3: quality review required."
     ++ opt_item p2 "Licensed product: licensing review required."
     ++ opt_item p3 "Marketing claims require legal/evidence review."
     ++ opt_item p4 "Plastic/PVC/blister: sustainability review recommended."
     ++ opt_item p5 "High-severity issues from brief require attention.")
    (p1 || p2 || p3).

Definition predicates_decision (brief : ExtractedBrief) : ReviewDecision :=
  decision_of (_age_under_3 (ExtractedBrief.age_grade brief))
              (ExtractedBrief.licensed brief)
              (_claims_need_evidence (ExtractedBrief.claims brief))
              (_plastic_present (ExtractedBrief.materials brief))
              (_high_severity_issues (ExtractedBrief.issues brief)).

(** ** The review packet, template mode ([src/packet.py]) *)

(** The text of a level, as an f-string prints it. *)
Definition Level_str (l : Level) : string :=
  match l with
  | low => "low"
  | medium => "medium"
  | high => "high"
  end.

(** The line feed, written "\n" in the source. *)
Definition NL : string := String (ascii_of_N 10) "".

(** [sep.join(l)] *)
Fixpoint join (sep : string) (l : list string) : string :=
  match l with
  | [] => ""
  | x :: rest =>
      match rest with
      | [] => x
      | _ :: _ => x +:+ sep +:+ join sep rest
      end
  end.

(** [s or d] on strings. *)
Definition str_or (s d : string) : string :=
  match s with
  | EmptyString => d
  | _ => s
  end.

(** [for x in xs: lines.append(f(x))] *)
Definition append_each {A} (f : A → string) (xs : list A) (lines : list string) : list string :=
  foldl (λ acc x, acc ++ [f x]) lines xs.

(** Lines 98-105. *)
Definition _required_approvals (decision : ReviewDecision) : list string :=
  let out := [] in
  let out := if ReviewDecision.requires_quality_review decision
             then out ++ ["Quality"] else out in
  let out := if ReviewDecision.requires_legal_review decision
             then out ++ ["Legal"] else out in
  let out := if ReviewDecision.requires_licensing_review decision
             then out ++ ["Licensing"] else out in
  let out := if ReviewDecision.requires_sustainability_review decision
             then out ++ ["Sustainability"] else out in
  out.

(** The two notes of the template.  The dash of the first is U+2013, which
    lies above U+00FF; it stands here as the three bytes of its UTF-8 form. *)
Definition EVIDENCE_NOTE : string := NL +:+ "*Evidence needed – legal review required.*".
Definition SUSTAINABILITY_NOTE : string := NL +:+ "*Sustainability review flagged.*".

Section TemplatePacket.

(** [PROMPT_VERSION = os.getenv("PROMPT_VERSION", "packet-draft-001")], read
    once when the module is loaded. *)
Variable PROMPT_VERSION : string.

(** The list [lines] of [_template_packet] (lines 36-94) as it stands at
    the [return]. *)
Definition _template_lines (brief : ExtractedBrief) (decision : ReviewDecision)
    (run_id model_name : string) : list string :=
  let lines :=
    [ "# Packaging Review Packet";
      "";
      "## Summary";
      "- **Product:** " +:+ product_name brief;
      "- **Markets:** " +:+ str_or (join ", " (markets brief)) "Not specified";
      "- **Age grade:** " +:+ age_grade brief;
      "- **Licensed:** " +:+ (if licensed brief then "Yes" else "No");
      "";
      "## Claims" ] in
  let lines :=
    if truthy (claims brief) then
      let lines := lines ++ ["| Raw text | Type | Severity |"] in
      let lines := lines ++ ["| --- | --- | --- |"] in
      let lines :=
        append_each
          (λ c, "| " +:+ ClaimObject.raw_text c +:+ " | " +:+ ClaimObject.normalized_type c
                +:+ " | " +:+ Level_str (ClaimObject.severity c) +:+ " |")
          (claims brief) lines in
      if ReviewDecision.requires_legal_review decision
      then lines ++ [EVIDENCE_NOTE]
      else lines
    else lines ++ ["- (None)"] in
  let lines := lines ++ [""] in
  let lines := lines ++ ["## Issues"] in
  let lines :=
    if truthy (issues brief) then
      append_each
        (λ i, "- [" +:+ Issue.type i +:+ "] " +:+ Issue.message i
              +:+ " (" +:+ Level_str (Issue.severity i) +:+ ")")
        (issues brief) lines
    else lines ++ ["- None"] in
  let lines := lines ++ [""] in
  let lines := lines ++ ["## Materials"] in
  let lines :=
    lines ++ [if truthy (materials brief) then join ", " (materials brief) else "(None)"] in
  let lines :=
    if ReviewDecision.requires_sustainability_review decision
    then lines ++ [SUSTAINABILITY_NOTE]
    else lines in
  let lines := lines ++ [""] in
  let lines := lines ++ ["## Risk"] in
  let lines := lines ++ ["- **Risk level:** " +:+ Level_str (ReviewDecision.risk_level decision)] in
  let lines :=
    lines ++ ["- **Flags:** " +:+ str_or (join ", " (ReviewDecision.risk_flags decision)) "None"] in
  let lines := lines ++ [""] in
  let lines := lines ++ ["## Required Approvals"] in
  let revs := [] in
  let revs := if ReviewDecision.requires_quality_review decision
              then revs ++ ["Quality"] else revs in
  let revs := if ReviewDecision.requires_legal_review decision
              then revs ++ ["Legal"] else revs in
  let revs := if ReviewDecision.requires_licensing_review decision
              then revs ++ ["Licensing"] else revs in
  let revs := if ReviewDecision.requires_sustainability_review decision
              then revs ++ ["Sustainability"] else revs in
  let lines :=
    lines ++ [if truthy revs then join NL ((λ r, "- " +:+ r) <$> revs) else "- None"] in
  let lines := lines ++ [""] in
  let lines := lines ++ ["## Checklist"] in
  let lines := lines ++ ["- [ ] Quality review (if required)"] in
  let lines := lines ++ ["- [ ] Legal review (if required)"] in
  let lines := lines ++ ["- [ ] Licensing review (if required)"] in
  let lines := lines ++ ["- [ ] Sustainability review (if required)"] in
  let lines := lines ++ ["- [ ] Human approval (if required)"] in
  let lines :=
    if truthy (clarifying_questions brief) then
      let lines := lines ++ [""] in
      let lines := lines ++ ["## Clarifying Questions"] in
      append_each (λ q, "- " +:+ q) (clarifying_questions brief) lines
    else lines in
  let lines := lines ++ [""] in
  let lines := lines ++ ["---"] in
  lines ++ ["*Run ID:* `" +:+ run_id +:+ "` | *Model:* " +:+ model_name
            +:+ " | *Prompt:* " +:+ PROMPT_VERSION].

Definition _template_packet (brief : ExtractedBrief) (decision : ReviewDecision)
    (run_id model_name : string) : string :=
  join NL (_template_lines brief decision run_id model_name).

End TemplatePacket.

(** The demo brief of [src/run.py]. *)
Definition DEMO_BRIEF : ExtractedBrief :=
  ExtractedBrief.mk "Disney Junior Wooden Blocks" "18m+" ["US"; "UK"; "AU"]
    [ ClaimObject.mk "Non-toxic" "CHEMICAL_SAFETY_CLAIM" ["non-toxic"] "Requires test report" high;
      ClaimObject.mk "BPA-free" "CHEMICAL_SAFETY_CLAIM" ["bpa"] "Requires documentation" high;
      ClaimObject.mk "Safe for toddlers" "SAFETY_CLAIM" ["safe"] "" medium ]
    ["wood"; "plastic"; "cardboard"] true (Some "Licensed character imagery.") [] []
    [ Issue.mk "AMBIGUOUS_AGE_GRADE" "Age 18m+ targets under-3; quality review needed." high ].

(** The approval that goes with a flag; high_severity_issues has none. *)
Definition approval_for_flag (flag : string) : option string :=
  if String.eqb flag "under_3" then Some "Quality"
  else if String.eqb flag "licensed_brand" then Some "Licensing"
  else if String.eqb flag "claims_need_evidence" then Some "Legal"
  else if String.eqb flag "plastic_present" then Some "Sustainability"
  else None.

(** How the template prints a list of approvals. *)
Definition approvals_line (revs : list string) : string :=
  match revs with
  | [] => "- None"
  | _ :: _ => join NL ((λ r, "- " +:+ r) <$> revs)
  end.

(** The section headings of the template, in order. *)
Definition TEMPLATE_SECTIONS : list string :=
  ["# Packaging Review Packet"; "## Summary"; "## Claims"; "## Issues"; "## Materials";
   "## Risk"; "## Required Approvals"; "## Checklist"].

(** [block] stands in [l] as consecutive elements. *)
Definition occurs_in {A} (block l : list A) : Prop :=
  ∃ before after, l = before ++ block ++ after.

(** ** The JSON text of a response ([src/llm.py]) *)

(** [s[n:]] *)
Fixpoint str_drop (n : nat) (s : string) : string :=
  match n, s with
  | O, _ => s
  | S _, EmptyString => EmptyString
  | S n', String _ s' => str_drop n' s'
  end.

(** [s[:n]] *)
Fixpoint str_take (n : nat) (s : string) : string :=
  match n, s with
  | O, _ => EmptyString
  | S _, EmptyString => EmptyString
  | S n', String c s' => String c (str_take n' s')
  end.

(** [s[start:end]] for indices that are not negative. *)
Definition slice (s : string) (start end_ : nat) : string :=
  str_take (end_ - start)%nat (str_drop start s).

(** [s.find(sub)]: the lowest index at which [sub] starts, [None] for -1. *)
Fixpoint find (sub s : string) : option nat :=
  if startswith sub s then Some O
  else match s with
       | EmptyString => None
       | String _ s' => S <$> find sub s'
       end.

(** [s.index(sub, start)]; [None] stands for the ValueError it raises when
    [sub] does not occur from [start] on. *)
Definition index (sub s : string) (start : nat) : option nat :=
  (λ i, (start + i)%nat) <$> find sub (str_drop start s).

(** Lines 77-85 of [extract_json_from_response]: the text that is handed to
    [json.loads]; [None] stands for the ValueError of [text.index]. *)
Definition _json_text (text : string) : option string :=
  let text := strip text in
  if contains "```json" text then
    i ← index "```json" text 0;
    let start := (i + 7)%nat in
    end_ ← index "```" text start;
    Some (strip (slice text start end_))
  else if contains "```" text then
    i ← index "```" text 0;
    let start := (i + 3)%nat in
    end_ ← index "```" text start;
    Some (strip (slice text start end_))
  else Some text.

Section ExtractJson.

(** [json.loads], with [None] for the JSONDecodeError (a ValueError) it
    raises on text that is no JSON. *)
Variable JSONValue : Type.
Variable json_loads : string → option JSONValue.

Definition extract_json_from_response (text : string) : option JSONValue :=
  _json_text text ≫= json_loads.

End ExtractJson.

(** No character of [s] is whitespace. *)
Fixpoint no_space (s : string) : bool :=
  match s with
  | EmptyString => true
  | String c s' => negb (is_space c) && no_space s'
  end.

(** ** Parsed JSON and the repair of claims and issues ([src/extract.py]) *)

Section Json.

(** The numbers [json.loads] produces ([int] and [float]), with their
    truth value ([n != 0]). *)
Variable number : Type.
Variable number_truthy : number → bool.

(** What [json.loads] returns.  A dict keeps its keys in the order of the
    document, so it is a list of pairs. *)
#[warnings="-register-all"]
Inductive JSON : Type :=
  | JNull
  | JBool (b : bool)
  | JNum (n : number)
  | JStr (s : string)
  | JList (l : list JSON)
  | JDict (kv : list (string * JSON)).

(** [repr] of a number, a list or a dict, which is what [str] prints for
    them. *)
Variable py_repr : JSON → string.

(** [str(v)] *)
Definition py_str (v : JSON) : string :=
  match v with
  | JNull => "None"
  | JBool true => "True"
  | JBool false => "False"
  | JStr s => s
  | JNum _ | JList _ | JDict _ => py_repr v
  end.

(** [bool(v)] *)
Definition py_bool (v : JSON) : bool :=
  match v with
  | JNull => false
  | JBool b => b
  | JNum n => number_truthy n
  | JStr s => negb (String.eqb s "")
  | JList l => truthy l
  | JDict kv => truthy kv
  end.

(** The characters of a string, each as a string. *)
Fixpoint string_chars (s : string) : list string :=
  match s with
  | EmptyString => []
  | String c s' => String c "" :: string_chars s'
  end.

(** [for x in v]: the items a loop over [v] sees; [None] stands for the
    TypeError raised on a value that is not iterable. *)
Definition py_iter (v : JSON) : option (list JSON) :=
  match v with
  | JList l => Some l
  | JStr s => Some (JStr <$> string_chars s)
  | JDict kv => Some (JStr <$> kv.*1)
  | JNull | JBool _ | JNum _ => None
  end.

(** [isinstance(v, dict)] *)
Definition is_dict (v : JSON) : bool :=
  match v with
  | JDict _ => true
  | _ => false
  end.

(** [d[k]] where [k in d]; [None] where it is not. *)
Fixpoint dict_get (k : string) (d : list (string * JSON)) : option JSON :=
  match d with
  | [] => None
  | (k', v') :: d' => if String.eqb k' k then Some v' else dict_get k d'
  end.

(** [d[k] = v]: the value of an existing key is replaced in place, a new
    key goes to the end. *)
Fixpoint dict_set (k : string) (v : JSON) (d : list (string * JSON)) : list (string * JSON) :=
  match d with
  | [] => [(k, v)]
  | (k', v') :: d' =>
      if String.eqb k' k then (k, v) :: d' else (k', v') :: dict_set k v d'
  end.

(** The dict that stands in for a claim that is no dict (line 58). *)
Definition default_claim (c : JSON) : JSON :=
  JDict [ ("raw_text", JStr (py_str c)); ("normalized_type", JStr "OTHER_CLAIM");
          ("risk_keywords", JList []); ("evidence_hint", JStr "");
          ("severity", JStr "medium") ].

(** The dict that stands in for an issue that is no dict (line 63). *)
Definition default_issue (i : JSON) : JSON :=
  JDict [ ("type", JStr "OTHER"); ("message", JStr (py_str i));
          ("severity", JStr "medium") ].

(** [_normalize_claims] (lines 55-65).  The dict is changed in place; the
    result is the dict as it stands when the function returns, [None] when
    a TypeError leaves it.  Each test ["k" in data and data["k"]] is one
    look-up followed by the truth value of what was found. *)
Definition _normalize_claims (data : list (string * JSON)) : option (list (string * JSON)) :=
  data ←
    match dict_get "claims" data with
    | Some v =>
        if py_bool v then
          cs ← py_iter v;
          Some (dict_set "claims"
                  (JList ((λ c, if is_dict c then c else default_claim c) <$> cs)) data)
        else Some data
    | None => Some data
    end;
  match dict_get "issues" data with
  | Some v =>
      if py_bool v then
        is_ ← py_iter v;
        Some (dict_set "issues"
                (JList ((λ i, if is_dict i then i else default_issue i) <$> is_)) data)
      else Some data
  | None => Some data
  end.

(** A truthy value a [for] loop cannot run over: [True] or a number other
    than zero. *)
Definition not_iterable (v : JSON) : Prop :=
  v = JBool true ∨ ∃ n, v = JNum n ∧ number_truthy n = true.

(** A value the two blocks leave as it is: a falsy one, or a list of
    dicts. *)
Definition well_formed_list (v : JSON) : Prop :=
  py_bool v = false ∨ ∃ l, v = JList l ∧ Forall (λ x, is_dict x = true) l.

(** Either block of [_normalize_claims], for its key and its default. *)
Definition repair_key (key : string) (dflt : JSON → JSON)
    (data : list (string * JSON)) : option (list (string * JSON)) :=
  match dict_get key data with
  | Some v =>
      if py_bool v then
        cs ← py_iter v;
        Some (dict_set key (JList ((λ c, if is_dict c then c else dflt c) <$> cs)) data)
      else Some data
  | None => Some data
  end.

(** The value a block puts in the place of [v], when it does not raise. *)
Definition repaired (dflt : JSON → JSON) (v : JSON) : JSON :=
  if py_bool v then
    match py_iter v with
    | Some cs => JList ((λ c, if is_dict c then c else dflt c) <$> cs)
    | None => v
    end
  else v.

End Json.

Arguments JNull {number}.
Arguments JBool {number} b.
Arguments JNum {number} n.
Arguments JStr {number} s.
Arguments JList {number} l.
Arguments JDict {number} kv.
Arguments py_iter {number} v.
Arguments is_dict {number} v.
Arguments dict_get {number} k d.
Arguments dict_set {number} k v d.
Arguments py_bool {number} number_truthy v.
Arguments py_str {number} py_repr v.
Arguments default_claim {number} py_repr c.
Arguments default_issue {number} py_repr i.
Arguments _normalize_claims {number} number_truthy py_repr data.
Arguments repair_key {number} number_truthy key dflt data.
Arguments repaired {number} number_truthy dflt v.
Arguments not_iterable {number} number_truthy v.
Arguments well_formed_list {number} number_truthy v.

(** A parsed reply in which one claim and one issue are bare strings, and
    the same with those two repaired. *)
Definition sample_data : list (string * JSON Z) :=
  [ ("product_name", JStr "Wooden Blocks");
    ("claims", JList [ JStr "Non-toxic";
                       JDict [("raw_text", JStr "BPA-free");
                              ("normalized_type", JStr "CHEMICAL_SAFETY_CLAIM")] ]);
    ("licensed", JBool true);
    ("issues", JList [ JStr "Age grade unclear" ]) ].

Definition sample_data_repaired : list (string * JSON Z) :=
  [ ("product_name", JStr "Wooden Blocks");
    ("claims", JList [ JDict [("raw_text", JStr "Non-toxic");
                              ("normalized_type", JStr "OTHER_CLAIM");
                              ("risk_keywords", JList []);
                              ("evidence_hint", JStr "");
                              ("severity", JStr "medium")];
                       JDict [("raw_text", JStr "BPA-free");
                              ("normalized_type", JStr "CHEMICAL_SAFETY_CLAIM")] ]);
    ("licensed", JBool true);
    ("issues", JList [ JDict [("type", JStr "OTHER");
                              ("message", JStr "Age grade unclear");
                              ("severity", JStr "medium")] ]) ].

(** A reply whose claims are one string, not a list. *)
Definition sample_data_flat : list (string * JSON Z) :=
  [ ("claims", JStr "Safe") ].

(** The truth value of an integer, and a stand-in for [repr]. *)
Definition Z_truthy (z : Z) : bool := negb (Z.eqb z 0).
Definition no_repr (v : JSON Z) : string := "".

(** ** The provider configuration ([src/llm.py]) *)

Definition GROQ_BASE : string := "https://api.groq.com/openai/v1".
Definition OLLAMA_BASE : string := "http://localhost:11434/v1".

(** The arguments [OpenAI(...)] is built with; [base_url] is [None] where
    the call does not pass one. *)
Record OpenAI : Type := mkOpenAI {
  api_key : string;
  base_url : option string
}.

(** [v or d], for the [Optional[str]] that [os.getenv] returns: [None] and
    the empty string give [d]. *)
Definition opt_or (v : option string) (d : string) : string :=
  match v with
  | None => d
  | Some s => str_or s d
  end.

(** [not key], for the [Optional[str]] that [os.getenv] returns. *)
Definition not_key (key : option string) : bool :=
  match key with
  | None => true
  | Some EmptyString => true
  | Some _ => false
  end.

(** [key.startswith(prefix)], on a key that is set. *)
Definition key_startswith (prefix : string) (key : option string) : bool :=
  match key with
  | Some k => startswith prefix k
  | None => false
  end.

Section Environment.

(** [os.environ], after [load_dotenv]. *)
Variable env : gmap string string.

(** [os.getenv(name)] and [os.getenv(name, default)] *)
Definition getenv (name : string) : option string := env !! name.
Definition getenv_default (name dflt : string) : string := default dflt (env !! name).

(** [get_client]; [None] stands for the ValueError it raises. *)
Definition get_client : option OpenAI :=
  let provider := lower (strip (opt_or (getenv "LLM_PROVIDER") "openai")) in
  if String.eqb provider "groq" then
    let key := getenv "GROQ_API_KEY" in
    if not_key key || key_startswith "gsk_REPLACE" key then None
    else Some (mkOpenAI (default "" key) (Some GROQ_BASE))
  else if String.eqb provider "ollama" then
    Some (mkOpenAI "ollama" (Some OLLAMA_BASE))
  else
    let key := getenv "OPENAI_API_KEY" in
    if not_key key || key_startswith "sk-REPLACE" key then None
    else Some (mkOpenAI (default "" key) None).

(** [get_model] *)
Definition get_model : string :=
  let provider := lower (strip (opt_or (getenv "LLM_PROVIDER") "openai")) in
  if String.eqb provider "groq" then getenv_default "GROQ_MODEL" "llama-3.1-8b-instant"
  else if String.eqb provider "ollama" then getenv_default "OLLAMA_MODEL" "llama3.2"
  else getenv_default "OPENAI_MODEL" "gpt-4o-mini".

End Environment.

(** Two environments. *)
Definition env_groq : gmap string string :=
  {[ "LLM_PROVIDER" := " Groq "; "GROQ_API_KEY" := "gsk_live_1234" ]}.

Definition env_placeholder : gmap string string :=
  {[ "OPENAI_API_KEY" := "sk-REPLACE-with-your-key" ]}.

(** ** Definitions for further properties of the classifier *)

(** The order low, medium, high of the risk levels. *)
Definition Level_rank (l : Level) : nat :=
  match l with
  | low => 0
  | medium => 1
  | high => 2
  end.

Definition with_age_grade (brief : ExtractedBrief) (ag : string) : ExtractedBrief :=
  ExtractedBrief.mk (product_name brief) ag (markets brief) (claims brief)
    (materials brief) (licensed brief) (notes brief) (missing_info brief)
    (clarifying_questions brief) (issues brief).

Definition with_materials (brief : ExtractedBrief) (ms : list string) : ExtractedBrief :=
  ExtractedBrief.mk (product_name brief) (age_grade brief) (markets brief) (claims brief)
    ms (licensed brief) (notes brief) (missing_info brief)
    (clarifying_questions brief) (issues brief).

(** ** Calls of [classify_risk] as runs

    A call is a run through the five [if] blocks, one step for each; what
    may differ from one run of the interpreter to the next is kept in a
    [Runtime]. *)

(** The order in which the set object [LEGAL_CLAIM_TYPES] holds its
    members: it follows the hash seed of the process, which changes from
    run to run. *)
Record Runtime : Type := mkRuntime {
  legal_claim_types_slots : list string
}.

(** The slots hold the members of the set literal, each once. *)
Definition runtime_ok (rt : Runtime) : Prop :=
  legal_claim_types_slots rt ≡ₚ elements LEGAL_CLAIM_TYPES.

(** [_claims_need_evidence], with [in LEGAL_CLAIM_TYPES] looked up in the
    slots of the run. *)
Fixpoint _claims_need_evidence_on (rt : Runtime) (claims : list ClaimObject) : bool :=
  match claims with
  | [] => false
  | c :: rest =>
      if in_list (ClaimObject.normalized_type c) (legal_claim_types_slots rt)
         || bool_decide (ClaimObject.severity c = high)
      then true
      else _claims_need_evidence_on rt rest
  end.

(** The places between the blocks of [classify_risk]. *)
Inductive Pc : Set :=
  | pc_under_3      (* before line 43 *)
  | pc_licensed     (* before line 48 *)
  | pc_claims       (* before line 53 *)
  | pc_plastic      (* before line 58 *)
  | pc_issues       (* before line 63 *)
  | pc_return.      (* before line 67 *)

(** One block: its test holds and its body runs, or its test fails and
    the locals stay. *)
Inductive step (rt : Runtime) (brief : ExtractedBrief) : Pc * Locals → Pc * Locals → Prop :=
  | step_under_3_taken st :
      _age_under_3 (age_grade brief) = true →
      step rt brief (pc_under_3, st)
        (pc_licensed,
         append_flag "under_3" "Age grade under 3: quality review required."
           (set_quality st))
  | step_under_3_skipped st :
      _age_under_3 (age_grade brief) = false →
      step rt brief (pc_under_3, st) (pc_licensed, st)
  | step_licensed_taken st :
      licensed brief = true →
      step rt brief (pc_licensed, st)
        (pc_claims,
         append_flag "licensed_brand" "Licensed product: licensing review required."
           (set_licensing st))
  | step_licensed_skipped st :
      licensed brief = false →
      step rt brief (pc_licensed, st) (pc_claims, st)
  | step_claims_taken st :
      _claims_need_evidence_on rt (claims brief) = true →
      step rt brief (pc_claims, st)
        (pc_plastic,
         append_flag "claims_need_evidence" "Marketing claims require legal/evidence review."
           (set_legal st))
  | step_claims_skipped st :
      _claims_need_evidence_on rt (claims brief) = false →
      step rt brief (pc_claims, st) (pc_plastic, st)
  | step_plastic_taken st :
      _plastic_present (materials brief) = true →
      step rt brief (pc_plastic, st)
        (pc_issues,
         append_flag "plastic_present"
           "Plastic/PVC/blister: sustainability review recommended."
           (set_sustainability st))
  | step_plastic_skipped st :
      _plastic_present (materials brief) = false →
      step rt brief (pc_plastic, st) (pc_issues, st)
  | step_issues_taken st :
      truthy (issues brief) && _high_severity_issues (issues brief) = true →
      step rt brief (pc_issues, st)
        (pc_return,
         append_flag "high_severity_issues"
           "High-severity issues from brief require attention." st)
  | step_issues_skipped st :
      truthy (issues brief) && _high_severity_issues (issues brief) = false →
      step rt brief (pc_issues, st) (pc_return, st).

(** From a place and its locals the call returns the decision [d]. *)
Inductive returns (rt : Runtime) (brief : ExtractedBrief) :
    Pc * Locals → ReviewDecision → Prop :=
  | returns_here st : returns rt brief (pc_return, st) (finish st)
  | returns_after c c' d :
      step rt brief c c' → returns rt brief c' d → returns rt brief c d.

(** [classify_risk(brief)] returns [d] in the run [rt]. *)
Definition call (rt : Runtime) (brief : ExtractedBrief) (d : ReviewDecision) : Prop :=
  returns rt brief (pc_under_3, locals_init) d.

(** The locals at the [return] when the blocks from a place on are run
    from given locals. *)
Definition run_from (brief : ExtractedBrief) (c : Pc * Locals) : Locals :=
  match c with
  | (pc_under_3, st) =>
      step_issues brief (step_plastic brief (step_claims brief
        (step_licensed brief (step_under_3 brief st))))
  | (pc_licensed, st) =>
      step_issues brief (step_plastic brief (step_claims brief (step_licensed brief st)))
  | (pc_claims, st) => step_issues brief (step_plastic brief (step_claims brief st))
  | (pc_plastic, st) => step_issues brief (step_plastic brief st)
  | (pc_issues, st) => step_issues brief st
  | (pc_return, st) => st
  end.

(** Two runs whose sets hold their members in opposite orders. *)
Definition runtime_a : Runtime :=
  mkRuntime ["CHEMICAL_SAFETY_CLAIM"; "SUSTAINABILITY_CLAIM"; "PERFORMANCE_CLAIM";
             "SAFETY_CLAIM"].

Definition runtime_b : Runtime :=
  mkRuntime ["SAFETY_CLAIM"; "PERFORMANCE_CLAIM"; "SUSTAINABILITY_CLAIM";
             "CHEMICAL_SAFETY_CLAIM"].

(** ** The classifier on objects that may lack data

    The same code, read on objects any of whose attributes may be [None]
    and whose lists may hold [None]: here a call can raise. *)

Inductive PyExc : Set :=
  | TypeError        (* 'NoneType' object is not iterable *)
  | AttributeError.  (* 'NoneType' object has no attribute ... *)

Inductive PyResult (A : Type) : Type :=
  | Ok (a : A)
  | Raise (e : PyExc).

Arguments Ok {A} a.
Arguments Raise {A} e.

Global Instance PyResult_bind : MBind PyResult :=
  λ A B k r, match r with Ok a => k a | Raise e => Raise e end.

(** The attributes [classify_risk] reads, each possibly [None]. *)
Record RawClaim : Type := mkRawClaim {
  raw_normalized_type : option string;
  raw_claim_severity : option string
}.

Record RawIssue : Type := mkRawIssue {
  raw_issue_severity : option string
}.

Record RawBrief : Type := mkRawBrief {
  raw_age_grade : option string;
  raw_licensed : option bool;
  raw_claims : option (list (option RawClaim));
  raw_materials : option (list (option string));
  raw_issues : option (list (option RawIssue))
}.

(** [iter(v)], as a [for] loop or a generator calls it: [None] is not
    iterable. *)
Definition py_items {A} (v : option (list A)) : PyResult (list A) :=
  match v with
  | Some l => Ok l
  | None => Raise TypeError
  end.

(** [o.attr]: [None] has no attribute. *)
Definition py_attr {A B} (attr : A → B) (o : option A) : PyResult B :=
  match o with
  | Some a => Ok (attr a)
  | None => Raise AttributeError
  end.

(** [v == s] where [v] may be [None]. *)
Definition opt_eqb (v : option string) (s : string) : bool :=
  match v with
  | Some x => String.eqb x s
  | None => false
  end.

(** [t in LEGAL_CLAIM_TYPES] where [t] may be [None]. *)
Definition opt_in_legal (t : option string) : bool :=
  match t with
  | Some x => bool_decide (x ∈ LEGAL_CLAIM_TYPES)
  | None => false
  end.

(** [bool(v)] for a flag and for a list that may be [None]. *)
Definition opt_true (v : option bool) : bool := default false v.

Definition opt_truthy {A} (v : option (list A)) : bool :=
  match v with
  | Some l => truthy l
  | None => false
  end.

Definition _age_under_3_raw (age_grade : option string) : PyResult bool :=
  let ag := strip (lower (opt_or age_grade "")) in
  Ok (existsb (fun x => contains x ag) UNDER_3_INDICATORS).

Definition _plastic_present_raw (materials : option (list (option string))) : PyResult bool :=
  ms ← py_items materials;
  Ok (existsb (fun m => in_list (strip (lower (opt_or m ""))) MATERIAL_PLASTIC) ms).

(** The body of the [for] loop of [_claims_need_evidence]: the second test
    is reached only when the first fails. *)
Fixpoint claims_loop_raw (claims : list (option RawClaim)) : PyResult bool :=
  match claims with
  | [] => Ok false
  | c :: rest =>
      t ← py_attr raw_normalized_type c;
      if opt_in_legal t then Ok true
      else
        s ← py_attr raw_claim_severity c;
        if opt_eqb s "high" then Ok true else claims_loop_raw rest
  end.

Definition _claims_need_evidence_raw (claims : option (list (option RawClaim))) : PyResult bool :=
  cs ← py_items claims;
  claims_loop_raw cs.

(** [any(i.severity == "high" for i in issues)]: it stops at the first
    issue that is high. *)
Fixpoint any_high_raw (issues : list (option RawIssue)) : PyResult bool :=
  match issues with
  | [] => Ok false
  | i :: rest =>
      s ← py_attr raw_issue_severity i;
      if opt_eqb s "high" then Ok true else any_high_raw rest
  end.

Definition _high_severity_issues_raw (issues : option (list (option RawIssue))) : PyResult bool :=
  is_ ← py_items issues;
  any_high_raw is_.

Definition classify_risk_raw (brief : RawBrief) : PyResult ReviewDecision :=
  let st := locals_init in
  b ← _age_under_3_raw (raw_age_grade brief);
  let st :=
    if b : bool
    then append_flag "under_3" "Age grade under 3: quality review required."
           (set_quality st)
    else st in
  let st :=
    if opt_true (raw_licensed brief)
    then append_flag "licensed_brand" "Licensed product: licensing review required."
           (set_licensing st)
    else st in
  b ← _claims_need_evidence_raw (raw_claims brief);
  let st :=
    if b : bool
    then append_flag "claims_need_evidence" "Marketing claims require legal/evidence review."
           (set_legal st)
    else st in
  b ← _plastic_present_raw (raw_materials brief);
  let st :=
    if b : bool
    then append_flag "plastic_present"
           "Plastic/PVC/blister: sustainability review recommended."
           (set_sustainability st)
    else st in
  b ← (if opt_truthy (raw_issues brief)
       then _high_severity_issues_raw (raw_issues brief)
       else Ok false);
  let st :=
    if b : bool
    then append_flag "high_severity_issues"
           "High-severity issues from brief require attention." st
    else st in
  Ok (finish st).

(** A brief of the declared shape, as such an object: every attribute is
    there, and no list holds [None]. *)
Definition raw_of (brief : ExtractedBrief) : RawBrief :=
  mkRawBrief
    (Some (age_grade brief))
    (Some (licensed brief))
    (Some ((λ c, Some (mkRawClaim (Some (ClaimObject.normalized_type c))
                                  (Some (Level_str (ClaimObject.severity c)))))
           <$> claims brief))
    (Some (Some <$> materials brief))
    (Some ((λ i, Some (mkRawIssue (Some (Level_str (Issue.severity i))))) <$> issues brief)).

(** Objects that lack data: no age grade, no licence mark and no issues; no
    list of claims; a claim that is [None] after one of high severity, and
    before it. *)
Definition raw_absent : RawBrief :=
  mkRawBrief None None (Some []) (Some [None; Some "pvc"]) None.

Definition raw_no_claims : RawBrief :=
  mkRawBrief (Some "5+") (Some false) None (Some []) (Some []).

Definition raw_none_after_high : RawBrief :=
  mkRawBrief (Some "5+") (Some false)
    (Some [Some (mkRawClaim None (Some "high")); None]) (Some []) (Some []).

Definition raw_none_before_high : RawBrief :=
  mkRawBrief (Some "5+") (Some false)
    (Some [None; Some (mkRawClaim None (Some "high"))]) (Some []) (Some []).

(** ** Tactics *)

Ltac case_bools :=
  repeat match goal with
         | p : bool |- _ => destruct p
         end.

(** ** Facts about the string primitives *)

Section PyStrFacts.

Lemma app_nil_l (s : string) : "" +:+ s = s.
Proof. reflexivity. Qed.

Lemma app_cons (c : ascii) (s1 s2 : string) :
  String c s1 +:+ s2 = String c (s1 +:+ s2).
Proof. reflexivity. Qed.

Lemma or_empty_id (s : string) : or_empty s = s.
Proof. by destruct s. Qed.

Lemma startswith_spec (x s : string) :
  startswith x s = true ↔ ∃ post, s = x +:+ post.
Proof.
  revert s. induction x as [|a x IH]; intros s.
  - split; [intros _; by exists s | done].
  - destruct s as [|b s]; cbn [startswith].
    + split; [done | intros [post Hp]; discriminate Hp].
    + destruct (Ascii.eqb_spec a b) as [->|Hab].
      * rewrite IH. split; intros [post Hp]; exists post.
        -- by rewrite app_cons, <- Hp.
        -- rewrite app_cons in Hp. by injection Hp.
      * split; [done | intros [post Hp]].
        rewrite app_cons in Hp. injection Hp as Hba _. by destruct Hab.
Qed.

Lemma contains_spec (x s : string) :
  contains x s = true ↔ is_substring x s.
Proof.
  unfold is_substring. induction s as [|b s IH]; cbn [contains].
  - rewrite orb_false_r, startswith_spec. split.
    + intros [post Hp]. by exists "", post.
    + intros ([|c pre] & post & Hp); [by exists post | discriminate Hp].
  - rewrite orb_true_iff, IH, startswith_spec. split.
    + intros [[post Hp] | (pre & post & Hp)].
      * by exists "", post.
      * exists (String b pre), post. by rewrite app_cons, <- Hp.
    + intros ([|c pre] & post & Hp).
      * left. by exists post.
      * right. rewrite app_cons in Hp. injection Hp as _ Hp. by exists pre, post.
Qed.

Lemma in_list_spec (x : string) (l : list string) :
  in_list x l = true ↔ x ∈ l.
Proof.
  unfold in_list. rewrite existsb_exists, list_elem_of_In. split.
  - intros (y & Hy & Heq). apply String.eqb_eq in Heq. by subst.
  - intros Hx. exists x. split; [done | apply String.eqb_refl].
Qed.

Lemma in_list_false (x : string) (l : list string) :
  in_list x l = false ↔ x ∉ l.
Proof. rewrite <- in_list_spec. by destruct (in_list x l). Qed.

Lemma lower_app (s1 s2 : string) :
  lower (s1 +:+ s2) = lower s1 +:+ lower s2.
Proof.
  induction s1 as [|c s1 IH]; [done |].
  rewrite app_cons. cbn [lower]. by rewrite IH, app_cons.
Qed.

(** A character that is no whitespace is where both strips stop. *)
Lemma lstrip_keeps (c : ascii) (pre post : string) :
  is_space c = false →
  ∃ pre', lstrip (pre +:+ String c post) = pre' +:+ String c post.
Proof.
  intros Hc. induction pre as [|a pre IH].
  - exists "". rewrite !app_nil_l. cbn [lstrip]. by rewrite Hc.
  - rewrite app_cons. cbn [lstrip]. destruct (is_space a).
    + exact IH.
    + exists (String a pre). by rewrite app_cons.
Qed.

Lemma rstrip_cons_keep (a : ascii) (s : string) :
  rstrip s ≠ "" → rstrip (String a s) = String a (rstrip s).
Proof. cbn [rstrip]. by destruct (rstrip s). Qed.

Lemma rstrip_cons_nonspace (c : ascii) (s : string) :
  is_space c = false → rstrip (String c s) = String c (rstrip s).
Proof. intros Hc. cbn [rstrip]. rewrite Hc. by destruct (rstrip s). Qed.

Lemma rstrip_keeps (c : ascii) (pre post : string) :
  is_space c = false →
  ∃ post', rstrip (pre +:+ String c post) = pre +:+ String c post'.
Proof.
  intros Hc. induction pre as [|a pre [post' IH]].
  - exists (rstrip post). rewrite !app_nil_l. by apply rstrip_cons_nonspace.
  - exists post'. rewrite !app_cons, rstrip_cons_keep; rewrite IH; [done |].
    by destruct pre.
Qed.

Lemma strip_keeps (c : ascii) (s : string) :
  is_space c = false →
  is_substring (String c "") s → is_substring (String c "") (strip s).
Proof.
  intros Hc (pre & post & ->). unfold strip, is_substring.
  change (String c "" +:+ post) with (String c post).
  destruct (lstrip_keeps c pre post Hc) as [pre' ->].
  destruct (rstrip_keeps c pre' post Hc) as [post' ->].
  by exists pre', post'.
Qed.

Lemma lower_keeps (c : ascii) (s : string) :
  lower_char c = c →
  is_substring (String c "") s → is_substring (String c "") (lower s).
Proof.
  intros Hc (pre & post & ->). exists (lower pre), (lower post).
  rewrite !lower_app. cbn [lower]. by rewrite Hc.
Qed.

End PyStrFacts.

(** ** What the four predicates decide *)

Section Predicates.

Lemma age_under_3_spec (age_grade : string) :
  _age_under_3 age_grade = true ↔
  ∃ x, x ∈ UNDER_3_INDICATORS ∧ is_substring x (strip (lower age_grade)).
Proof.
  unfold _age_under_3. rewrite or_empty_id, existsb_exists.
  split; intros (x & Hx & Hc); exists x.
  - by rewrite list_elem_of_In, <- contains_spec.
  - by rewrite <- list_elem_of_In, contains_spec.
Qed.

Lemma plastic_present_spec (materials : list string) :
  _plastic_present materials = true ↔
  ∃ m, m ∈ materials ∧ strip (lower m) ∈ MATERIAL_PLASTIC.
Proof.
  unfold _plastic_present. rewrite existsb_exists.
  split; intros (m & Hm & Hp); exists m.
  - rewrite or_empty_id, in_list_spec in Hp. by rewrite list_elem_of_In.
  - rewrite or_empty_id, in_list_spec. by rewrite <- list_elem_of_In.
Qed.

Lemma legal_claim_types_elem (t : string) :
  t ∈ LEGAL_CLAIM_TYPES ↔
  t ∈ ["CHEMICAL_SAFETY_CLAIM"; "SUSTAINABILITY_CLAIM"; "PERFORMANCE_CLAIM"; "SAFETY_CLAIM"].
Proof.
  unfold LEGAL_CLAIM_TYPES.
  rewrite !elem_of_union, !elem_of_singleton, !elem_of_cons, elem_of_nil. tauto.
Qed.

Lemma claims_need_evidence_spec (claims : list ClaimObject) :
  _claims_need_evidence claims = true ↔
  ∃ c, c ∈ claims ∧
       (ClaimObject.normalized_type c ∈ LEGAL_CLAIM_TYPES ∨ ClaimObject.severity c = high).
Proof.
  induction claims as [|c rest IH]; cbn [_claims_need_evidence].
  - split; [done | intros (c & Hc & _); by apply elem_of_nil in Hc].
  - destruct (bool_decide _ || bool_decide _) eqn:Hhead.
    + split; [intros _ | done]. exists c. split; [left |].
      apply orb_true_iff in Hhead as [H | H]; apply bool_decide_eq_true in H; auto.
    + rewrite IH. apply orb_false_iff in Hhead as [Ht Hs].
      apply bool_decide_eq_false in Ht, Hs.
      split; intros (c' & Hc' & Hneed).
      * exists c'. split; [by right | done].
      * apply elem_of_cons in Hc' as [-> | Hc']; [by destruct Hneed | by exists c'].
Qed.

Lemma high_severity_issues_spec (issues : list Issue) :
  _high_severity_issues issues = true ↔
  ∃ i, i ∈ issues ∧ Issue.severity i = high.
Proof.
  unfold _high_severity_issues. rewrite existsb_exists.
  split; intros (i & Hi & Hs); exists i.
  - apply bool_decide_eq_true in Hs. by rewrite list_elem_of_In.
  - rewrite bool_decide_eq_true. by rewrite <- list_elem_of_In.
Qed.

(** The guard [brief.issues and ...] adds nothing to the scan: an empty
    list has no high-severity issue. *)
Lemma truthy_and_high (issues : list Issue) :
  truthy issues && _high_severity_issues issues = _high_severity_issues issues.
Proof. by destruct issues. Qed.

End Predicates.

(** ** The closed form of the decision *)

Section Decision.

Lemma classify_risk_closed (brief : ExtractedBrief) :
  classify_risk brief = predicates_decision brief.
Proof.
  unfold classify_risk, predicates_decision, run_steps.
  unfold step_issues, step_plastic, step_claims, step_licensed, step_under_3.
  rewrite truthy_and_high.
  generalize (_age_under_3 (ExtractedBrief.age_grade brief)) as p1.
  generalize (ExtractedBrief.licensed brief) as p2.
  generalize (_claims_need_evidence (ExtractedBrief.claims brief)) as p3.
  generalize (_plastic_present (ExtractedBrief.materials brief)) as p4.
  generalize (_high_severity_issues (ExtractedBrief.issues brief)) as p5.
  intros. by case_bools.
Qed.

Implicit Types p : bool.

Lemma raised_under_3 p1 p2 p3 p4 p5 :
  in_list "under_3" (ReviewDecision.risk_flags (decision_of p1 p2 p3 p4 p5)) = p1.
Proof. by case_bools. Qed.

Lemma raised_licensed_brand p1 p2 p3 p4 p5 :
  in_list "licensed_brand" (ReviewDecision.risk_flags (decision_of p1 p2 p3 p4 p5)) = p2.
Proof. by case_bools. Qed.

Lemma raised_claims_need_evidence p1 p2 p3 p4 p5 :
  in_list "claims_need_evidence" (ReviewDecision.risk_flags (decision_of p1 p2 p3 p4 p5)) = p3.
Proof. by case_bools. Qed.

Lemma raised_plastic_present p1 p2 p3 p4 p5 :
  in_list "plastic_present" (ReviewDecision.risk_flags (decision_of p1 p2 p3 p4 p5)) = p4.
Proof. by case_bools. Qed.

Lemma raised_high_severity_issues p1 p2 p3 p4 p5 :
  in_list "high_severity_issues" (ReviewDecision.risk_flags (decision_of p1 p2 p3 p4 p5)) = p5.
Proof. by case_bools. Qed.

Lemma flags_nil p1 p2 p3 p4 p5 :
  ReviewDecision.risk_flags (decision_of p1 p2 p3 p4 p5) = [] ↔
  p1 || p2 || p3 || p4 || p5 = false.
Proof. by case_bools. Qed.

End Decision.

(** ** Properties of [classify_risk] *)

Section Claims.

(** Every flag test on the returned decision reduces to one predicate. *)
Ltac to_predicates brief :=
  rewrite (classify_risk_closed brief); unfold predicates_decision;
  generalize (_age_under_3 (age_grade brief)) as p1;
  generalize (licensed brief) as p2;
  generalize (_claims_need_evidence (claims brief)) as p3;
  generalize (_plastic_present (materials brief)) as p4;
  generalize (_high_severity_issues (issues brief)) as p5;
  intros p5 p4 p3 p2 p1.

Ltac flags_to_bools :=
  rewrite <- ?in_list_spec, <- ?in_list_false,
    ?raised_under_3, ?raised_licensed_brand, ?raised_claims_need_evidence,
    ?raised_plastic_present, ?raised_high_severity_issues, ?flags_nil.

Lemma flag_under_3 (brief : ExtractedBrief) :
  "under_3" ∈ ReviewDecision.risk_flags (classify_risk brief) ↔
  _age_under_3 (age_grade brief) = true.
Proof. rewrite classify_risk_closed. unfold predicates_decision. by flags_to_bools. Qed.

Lemma flag_licensed_brand (brief : ExtractedBrief) :
  "licensed_brand" ∈ ReviewDecision.risk_flags (classify_risk brief) ↔
  licensed brief = true.
Proof. rewrite classify_risk_closed. unfold predicates_decision. by flags_to_bools. Qed.

Lemma flag_claims_need_evidence (brief : ExtractedBrief) :
  "claims_need_evidence" ∈ ReviewDecision.risk_flags (classify_risk brief) ↔
  _claims_need_evidence (claims brief) = true.
Proof. rewrite classify_risk_closed. unfold predicates_decision. by flags_to_bools. Qed.

Lemma flag_plastic_present (brief : ExtractedBrief) :
  "plastic_present" ∈ ReviewDecision.risk_flags (classify_risk brief) ↔
  _plastic_present (materials brief) = true.
Proof. rewrite classify_risk_closed. unfold predicates_decision. by flags_to_bools. Qed.

Lemma flag_high_severity_issues (brief : ExtractedBrief) :
  "high_severity_issues" ∈ ReviewDecision.risk_flags (classify_risk brief) ↔
  _high_severity_issues (issues brief) = true.
Proof. rewrite classify_risk_closed. unfold predicates_decision. by flags_to_bools. Qed.

(** C1. The risk level is "high" exactly when the under_3 or the
    licensed_brand flag is among the raised flags, whatever else was raised;
    failing that it is "medium" exactly when some flag was raised, and "low"
    exactly when none was.  The two flags are raised by the under-3 test on
    the age grade and by the licensed field, so either of these forces
    "high" regardless of every other field. *)
Theorem C1_risk_level_from_flags (brief : ExtractedBrief) :
  let d := classify_risk brief in
  let top := "under_3" ∈ ReviewDecision.risk_flags d
             ∨ "licensed_brand" ∈ ReviewDecision.risk_flags d in
  (ReviewDecision.risk_level d = high ↔ top) ∧
  (ReviewDecision.risk_level d = medium ↔ ¬ top ∧ ReviewDecision.risk_flags d ≠ []) ∧
  (ReviewDecision.risk_level d = low ↔ ¬ top ∧ ReviewDecision.risk_flags d = []) ∧
  (top ↔ _age_under_3 (age_grade brief) = true ∨ licensed brief = true).
Proof.
  intros d top. subst top d.
  rewrite flag_under_3, flag_licensed_brand.
  to_predicates brief. flags_to_bools. cbn [ReviewDecision.risk_level decision_of].
  case_bools; cbn; intuition congruence.
Qed.

(** C2. Human approval is required exactly when under_3, licensed_brand or
    claims_need_evidence is among the raised flags; when every raised flag is
    plastic_present or high_severity_issues, it is not required. *)
Theorem C2_human_approval_gating (brief : ExtractedBrief) :
  let d := classify_risk brief in
  (ReviewDecision.human_approval_required d = true ↔
     "under_3" ∈ ReviewDecision.risk_flags d
     ∨ "licensed_brand" ∈ ReviewDecision.risk_flags d
     ∨ "claims_need_evidence" ∈ ReviewDecision.risk_flags d) ∧
  ((∀ f, f ∈ ReviewDecision.risk_flags d →
         f = "plastic_present" ∨ f = "high_severity_issues") →
   ReviewDecision.human_approval_required d = false).
Proof.
  intros d. subst d.
  assert (ReviewDecision.human_approval_required (classify_risk brief) = true ↔
     "under_3" ∈ ReviewDecision.risk_flags (classify_risk brief)
     ∨ "licensed_brand" ∈ ReviewDecision.risk_flags (classify_risk brief)
     ∨ "claims_need_evidence" ∈ ReviewDecision.risk_flags (classify_risk brief)) as Hiff.
  { to_predicates brief. flags_to_bools. cbn [ReviewDecision.human_approval_required decision_of].
    case_bools; cbn; intuition congruence. }
  split; [exact Hiff |]. intros Honly.
  apply not_true_is_false. rewrite Hiff.
  intros [H | [H | H]]; apply Honly in H as [H | H]; discriminate H.
Qed.

Lemma quality_is_under_3 (brief : ExtractedBrief) :
  ReviewDecision.requires_quality_review (classify_risk brief)
  = _age_under_3 (age_grade brief).
Proof. by rewrite classify_risk_closed. Qed.

Lemma legal_is_claims (brief : ExtractedBrief) :
  ReviewDecision.requires_legal_review (classify_risk brief)
  = _claims_need_evidence (claims brief).
Proof. by rewrite classify_risk_closed. Qed.

Lemma licensing_is_licensed (brief : ExtractedBrief) :
  ReviewDecision.requires_licensing_review (classify_risk brief) = licensed brief.
Proof. by rewrite classify_risk_closed. Qed.

Lemma sustainability_is_plastic (brief : ExtractedBrief) :
  ReviewDecision.requires_sustainability_review (classify_risk brief)
  = _plastic_present (materials brief).
Proof. by rewrite classify_risk_closed. Qed.

Lemma under_3_match_iff (age_grade : string) :
  _age_under_3 age_grade = true ↔ under_3_match age_grade.
Proof. apply age_under_3_spec. Qed.

Lemma digit_2_matches (age_grade : string) :
  is_substring "2" age_grade → under_3_match age_grade.
Proof.
  intros H2. exists "2". split.
  - apply in_list_spec. reflexivity.
  - apply strip_keeps; [done |]. by apply lower_keeps.
Qed.

(** C3. The under_3 flag is raised, and quality review required, exactly
    when the lowercased and trimmed age grade contains one of "0", "1", "2",
    "18m", "24m", "under 3", "under three" as a substring.  So the age grade
    "0-3" raises it, and so does every age grade in which the digit 2
    occurs anywhere. *)
Theorem C3_under_3_substring_rule (brief : ExtractedBrief) :
  let d := classify_risk brief in
  ("under_3" ∈ ReviewDecision.risk_flags d ↔ under_3_match (age_grade brief)) ∧
  (ReviewDecision.requires_quality_review d = true ↔ under_3_match (age_grade brief)) ∧
  (age_grade brief = "0-3" →
     "under_3" ∈ ReviewDecision.risk_flags d
     ∧ ReviewDecision.requires_quality_review d = true) ∧
  (is_substring "2" (age_grade brief) →
     "under_3" ∈ ReviewDecision.risk_flags d
     ∧ ReviewDecision.requires_quality_review d = true).
Proof.
  intros d. subst d. rewrite flag_under_3, quality_is_under_3.
  split; [apply under_3_match_iff |]. split; [apply under_3_match_iff |]. split.
  - by intros ->.
  - intros H2. by apply digit_2_matches, under_3_match_iff in H2.
Qed.

Lemma needs_evidence_iff (cs : list ClaimObject) :
  _claims_need_evidence cs = true ↔ ∃ c, c ∈ cs ∧ needs_evidence c.
Proof.
  rewrite claims_need_evidence_spec. unfold needs_evidence.
  split; intros (c & Hc & Hn); exists c; split; try done.
  - by rewrite <- legal_claim_types_elem.
  - by rewrite legal_claim_types_elem.
Qed.

Lemma as_other_claim_same (cs : list ClaimObject) :
  _claims_need_evidence (as_other_claim <$> cs) = _claims_need_evidence cs.
Proof.
  induction cs as [|c cs IH]; [done |].
  rewrite fmap_cons. cbn [_claims_need_evidence]. rewrite IH.
  unfold as_other_claim.
  destruct (bool_decide (ClaimObject.normalized_type c ∈ LEGAL_CLAIM_TYPES)) eqn:Ht.
  - by rewrite Ht.
  - cbn [ClaimObject.normalized_type ClaimObject.severity].
    replace (bool_decide ("OTHER_CLAIM" ∈ LEGAL_CLAIM_TYPES)) with false; [done |].
    symmetry. apply bool_decide_eq_false. rewrite legal_claim_types_elem.
    rewrite <- in_list_false. reflexivity.
Qed.

(** C4. The claims_need_evidence flag is raised, and legal review required,
    exactly when some claim is of type CHEMICAL_SAFETY_CLAIM,
    SUSTAINABILITY_CLAIM, PERFORMANCE_CLAIM or SAFETY_CLAIM, or is of high
    severity whatever its type.  Claims of any other type and of severity
    other than high never raise it, and giving them the type OTHER_CLAIM
    changes nothing in the decision. *)
Theorem C4_claims_need_evidence_rule (brief : ExtractedBrief) :
  let d := classify_risk brief in
  ("claims_need_evidence" ∈ ReviewDecision.risk_flags d ↔
     ∃ c, c ∈ claims brief ∧ needs_evidence c) ∧
  (ReviewDecision.requires_legal_review d = true ↔
     ∃ c, c ∈ claims brief ∧ needs_evidence c) ∧
  ((∀ c, c ∈ claims brief →
      (ClaimObject.normalized_type c
         ∉ ["CHEMICAL_SAFETY_CLAIM"; "SUSTAINABILITY_CLAIM"; "PERFORMANCE_CLAIM"; "SAFETY_CLAIM"])
      ∧ ClaimObject.severity c ≠ high) →
   ("claims_need_evidence" ∉ ReviewDecision.risk_flags d)
   ∧ ReviewDecision.requires_legal_review d = false) ∧
  classify_risk (with_claims brief (as_other_claim <$> claims brief)) = d.
Proof.
  intros d. subst d. rewrite flag_claims_need_evidence, legal_is_claims.
  split; [apply needs_evidence_iff |]. split; [apply needs_evidence_iff |]. split.
  - intros Hnone.
    assert (_claims_need_evidence (claims brief) ≠ true) as Hf.
    { rewrite needs_evidence_iff. intros (c & Hc & Hn).
      destruct (Hnone c Hc) as [Ht Hs]. by destruct Hn. }
    split; [done | by apply not_true_is_false].
  - rewrite !classify_risk_closed. unfold predicates_decision, with_claims.
    cbn [age_grade licensed claims materials issues].
    by rewrite as_other_claim_same.
Qed.

Lemma plastic_material_iff (ms : list string) :
  _plastic_present ms = true ↔ ∃ m, m ∈ ms ∧ plastic_material m.
Proof. apply plastic_present_spec. Qed.

(** C5. The plastic_present flag is raised, and sustainability review
    required, exactly when some material, lowercased and trimmed, equals
    "plastic", "pvc" or "blister".  Materials that only contain one of these,
    such as "plastics", do not raise it. *)
Theorem C5_plastic_exact_match (brief : ExtractedBrief) :
  let d := classify_risk brief in
  ("plastic_present" ∈ ReviewDecision.risk_flags d ↔
     ∃ m, m ∈ materials brief ∧ plastic_material m) ∧
  (ReviewDecision.requires_sustainability_review d = true ↔
     ∃ m, m ∈ materials brief ∧ plastic_material m) ∧
  ((∀ m, m ∈ materials brief →
      strip (lower m) ≠ "plastic" ∧ strip (lower m) ≠ "pvc" ∧ strip (lower m) ≠ "blister") →
   ("plastic_present" ∉ ReviewDecision.risk_flags d)
   ∧ ReviewDecision.requires_sustainability_review d = false) ∧
  (is_substring "plastic" "plastics" ∧
   ((∀ m, m ∈ materials brief → m = "plastics") →
    ("plastic_present" ∉ ReviewDecision.risk_flags d)
    ∧ ReviewDecision.requires_sustainability_review d = false)).
Proof.
  intros d. subst d. rewrite flag_plastic_present, sustainability_is_plastic.
  split; [apply plastic_material_iff |]. split; [apply plastic_material_iff |].
  assert (∀ P : string → Prop,
            (∀ m, P m → ¬ plastic_material m) →
            (∀ m, m ∈ materials brief → P m) →
            _plastic_present (materials brief) ≠ true
            ∧ _plastic_present (materials brief) = false) as Hno.
  { intros P HP Hall.
    assert (_plastic_present (materials brief) ≠ true) as Hf.
    { rewrite plastic_material_iff. intros (m & Hm & Hp). by apply (HP m); [apply Hall |]. }
    split; [done | by apply not_true_is_false]. }
  split; [| split].
  - apply Hno. intros m (H1 & H2 & H3) Hp. unfold plastic_material in Hp.
    rewrite !elem_of_cons, elem_of_nil in Hp. tauto.
  - apply contains_spec. reflexivity.
  - apply Hno. intros m -> Hp. unfold plastic_material in Hp.
    apply in_list_spec in Hp. discriminate Hp.
Qed.

(** C6. The high_severity_issues flag is raised exactly when some issue has
    severity high.  The block that raises it leaves the four review booleans
    as they were, so when it is the only flag raised all four are false, no
    human approval is required, and the risk level is "medium". *)
Theorem C6_high_severity_issues_informational (brief : ExtractedBrief) :
  let d := classify_risk brief in
  ("high_severity_issues" ∈ ReviewDecision.risk_flags d ↔
     ∃ i, i ∈ issues brief ∧ Issue.severity i = high) ∧
  (∀ st : Locals,
     requires_quality_review (step_issues brief st) = requires_quality_review st
     ∧ requires_legal_review (step_issues brief st) = requires_legal_review st
     ∧ requires_licensing_review (step_issues brief st) = requires_licensing_review st
     ∧ requires_sustainability_review (step_issues brief st)
       = requires_sustainability_review st) ∧
  (ReviewDecision.risk_flags d = ["high_severity_issues"] →
     ReviewDecision.requires_quality_review d = false
     ∧ ReviewDecision.requires_legal_review d = false
     ∧ ReviewDecision.requires_licensing_review d = false
     ∧ ReviewDecision.requires_sustainability_review d = false
     ∧ ReviewDecision.human_approval_required d = false
     ∧ ReviewDecision.risk_level d = medium).
Proof.
  intros d. subst d. split; [| split].
  - rewrite flag_high_severity_issues. apply high_severity_issues_spec.
  - intros st. unfold step_issues. by destruct (truthy _ && _).
  - to_predicates brief. by case_bools.
Qed.

(** C7. When the age grade matches no under-3 indicator, the product is not
    licensed, no claim is of a legal claim type or of high severity, no
    material is "plastic", "pvc" or "blister", and no issue is of high
    severity, the decision is: risk level "low", the four review booleans
    false, no human approval, no flags and no routing notes. *)
Theorem C7_no_flags_low_risk (brief : ExtractedBrief) :
  ¬ under_3_match (age_grade brief) →
  licensed brief = false →
  (∀ c, c ∈ claims brief → ¬ needs_evidence c) →
  (∀ m, m ∈ materials brief → ¬ plastic_material m) →
  (∀ i, i ∈ issues brief → Issue.severity i ≠ high) →
  classify_risk brief = decision_no_flags.
Proof.
  intros Hage Hlic Hclaims Hmat Hiss.
  rewrite classify_risk_closed. unfold predicates_decision.
  replace (_age_under_3 (age_grade brief)) with false; cycle 1.
  { symmetry. apply not_true_is_false. by rewrite under_3_match_iff. }
  replace (_claims_need_evidence (claims brief)) with false; cycle 1.
  { symmetry. apply not_true_is_false. rewrite needs_evidence_iff.
    intros (c & Hc & Hn). by apply (Hclaims c). }
  replace (_plastic_present (materials brief)) with false; cycle 1.
  { symmetry. apply not_true_is_false. rewrite plastic_material_iff.
    intros (m & Hm & Hp). by apply (Hmat m). }
  replace (_high_severity_issues (issues brief)) with false; cycle 1.
  { symmetry. apply not_true_is_false. rewrite high_severity_issues_spec.
    intros (i & Hi & Hs). by apply (Hiss i). }
  by rewrite Hlic.
Qed.

(** The decision reads only the age grade, the licensed field, the type and
    severity of each claim, the materials and the severity of each issue. *)
Lemma classify_risk_reads_only (brief1 brief2 : ExtractedBrief) :
  age_grade brief1 = age_grade brief2 →
  licensed brief1 = licensed brief2 →
  (λ c, (ClaimObject.normalized_type c, ClaimObject.severity c)) <$> claims brief1
  = (λ c, (ClaimObject.normalized_type c, ClaimObject.severity c)) <$> claims brief2 →
  materials brief1 = materials brief2 →
  Issue.severity <$> issues brief1 = Issue.severity <$> issues brief2 →
  classify_risk brief1 = classify_risk brief2.
Proof.
  intros Hage Hlic Hclaims Hmat Hiss.
  rewrite !classify_risk_closed. unfold predicates_decision.
  rewrite Hage, Hlic, Hmat. f_equal.
  - revert Hclaims. generalize (claims brief2). induction (claims brief1) as [|c cs IH].
    + by intros [|c2 cs2].
    + intros [|c2 cs2]; [done |]. rewrite !fmap_cons. intros [= Ht Hs Hrest].
      cbn [_claims_need_evidence]. by rewrite Ht, Hs, (IH cs2).
  - revert Hiss. generalize (issues brief2). induction (issues brief1) as [|i rest IH].
    + by intros [|i2 rest2].
    + intros [|i2 rest2]; [done |]. rewrite !fmap_cons. intros [= Hs Hrest].
      unfold _high_severity_issues in *. cbn [existsb]. by rewrite Hs, (IH rest2).
Qed.

(** C10. In every decision no flag occurs twice, the flags are a
    subsequence of under_3, licensed_brand, claims_need_evidence,
    plastic_present, high_severity_issues, and the routing notes are, one
    for one and in the same order, the notes of the raised flags; the two
    lists have the same length. *)
Theorem C10_flags_and_notes_shape (brief : ExtractedBrief) :
  let d := classify_risk brief in
  NoDup (ReviewDecision.risk_flags d) ∧
  ReviewDecision.risk_flags d `sublist_of` EVALUATION_ORDER ∧
  length (ReviewDecision.routing_notes d) = length (ReviewDecision.risk_flags d) ∧
  zip (ReviewDecision.risk_flags d) (ReviewDecision.routing_notes d)
    `sublist_of` FLAG_NOTES.
Proof.
  intros d. subst d. to_predicates brief.
  case_bools; cbn; (split; [by apply (bool_decide_unpack _) |]);
    (split; [repeat constructor |]); (split; [done |]); repeat constructor.
Qed.

(** The three golden cases. *)
Example golden_high :
  classify_risk brief_high
  = ReviewDecision.mk true true true true
      ["under_3"; "licensed_brand"; "claims_need_evidence"; "plastic_present"] high
      ["Age grade under 3: quality review required.";
       "Licensed product: licensing review required.";
       "Marketing claims require legal/evidence review.";
       "Plastic/PVC/blister: sustainability review recommended."] true.
Proof. reflexivity. Qed.

Example golden_low : classify_risk brief_low = decision_no_flags.
Proof. reflexivity. Qed.

Example golden_medium :
  classify_risk brief_medium
  = ReviewDecision.mk false true false true
      ["claims_need_evidence"; "plastic_present"] medium
      ["Marketing claims require legal/evidence review.";
       "Plastic/PVC/blister: sustainability review recommended."] true.
Proof. reflexivity. Qed.

Example under_3_samples :
  _age_under_3 "0-3" = true ∧ _age_under_3 "Ages 12 and up" = true
  ∧ _age_under_3 "  UNDER THREE " = true ∧ _age_under_3 "18M+" = true
  ∧ _age_under_3 "3+" = false ∧ _age_under_3 "" = false.
Proof. by repeat split. Qed.

Example plastic_samples :
  _plastic_present ["wood"; " PVC "] = true ∧ _plastic_present ["Blister"] = true
  ∧ _plastic_present ["plastics"] = false ∧ _plastic_present ["bioplastic"; ""] = false.
Proof. by repeat split. Qed.

Example claims_samples :
  _claims_need_evidence [ClaimObject.mk "Fun" "MYSTERY_CLAIM" [] "" medium] = false
  ∧ _claims_need_evidence [ClaimObject.mk "Fun" "OTHER_CLAIM" [] "" high] = true
  ∧ _claims_need_evidence [ClaimObject.mk "Fun" "safety_claim" [] "" low;
                           ClaimObject.mk "Safe" "SAFETY_CLAIM" [] "" low] = true.
Proof. by repeat split. Qed.

Example issue_only_decision :
  classify_risk brief_issue_only
  = ReviewDecision.mk false false false false ["high_severity_issues"] medium
      ["High-severity issues from brief require attention."] false.
Proof. reflexivity. Qed.

Lemma C2_human_approval_gating_witness :
  ReviewDecision.risk_flags (classify_risk brief_advisory)
  = ["plastic_present"; "high_severity_issues"]
  ∧ ReviewDecision.human_approval_required (classify_risk brief_advisory) = false.
Proof.
  split; [reflexivity |].
  apply (proj2 (C2_human_approval_gating brief_advisory)).
  intros f Hf. change (f ∈ ["plastic_present"; "high_severity_issues"]) in Hf.
  rewrite !elem_of_cons, elem_of_nil in Hf. tauto.
Defined.

Lemma C3_under_3_substring_rule_witness :
  ("under_3" ∈ ReviewDecision.risk_flags (classify_risk brief_age_0_3)
   ∧ ReviewDecision.requires_quality_review (classify_risk brief_age_0_3) = true)
  ∧ ("under_3" ∈ ReviewDecision.risk_flags (classify_risk brief_room_201)
     ∧ ReviewDecision.requires_quality_review (classify_risk brief_room_201) = true).
Proof.
  split.
  - apply (proj1 (proj2 (proj2 (C3_under_3_substring_rule brief_age_0_3)))).
    reflexivity.
  - apply (proj2 (proj2 (proj2 (C3_under_3_substring_rule brief_room_201)))).
    apply contains_spec. reflexivity.
Defined.

Lemma C4_claims_need_evidence_rule_witness :
  ("claims_need_evidence" ∉ ReviewDecision.risk_flags (classify_risk brief_low))
  ∧ ReviewDecision.requires_legal_review (classify_risk brief_low) = false.
Proof.
  apply (proj1 (proj2 (proj2 (C4_claims_need_evidence_rule brief_low)))).
  intros c Hc. apply list_elem_of_singleton in Hc as ->. split.
  - apply in_list_false. reflexivity.
  - discriminate.
Defined.

Lemma C5_plastic_exact_match_witness :
  ("plastic_present" ∉ ReviewDecision.risk_flags (classify_risk brief_plastics))
  ∧ ReviewDecision.requires_sustainability_review (classify_risk brief_plastics) = false.
Proof.
  apply (proj2 (proj2 (proj2 (proj2 (C5_plastic_exact_match brief_plastics))))).
  intros m Hm. by apply list_elem_of_singleton in Hm.
Defined.

Lemma C6_high_severity_issues_informational_witness :
  ReviewDecision.requires_quality_review (classify_risk brief_issue_only) = false
  ∧ ReviewDecision.requires_legal_review (classify_risk brief_issue_only) = false
  ∧ ReviewDecision.requires_licensing_review (classify_risk brief_issue_only) = false
  ∧ ReviewDecision.requires_sustainability_review (classify_risk brief_issue_only) = false
  ∧ ReviewDecision.human_approval_required (classify_risk brief_issue_only) = false
  ∧ ReviewDecision.risk_level (classify_risk brief_issue_only) = medium.
Proof.
  apply (proj2 (proj2 (C6_high_severity_issues_informational brief_issue_only))).
  reflexivity.
Defined.

Lemma C7_no_flags_low_risk_witness :
  licensed brief_low = false ∧ classify_risk brief_low = decision_no_flags.
Proof.
  split; [reflexivity |].
  apply (C7_no_flags_low_risk brief_low).
  - rewrite <- under_3_match_iff. vm_compute. discriminate.
  - reflexivity.
  - intros c Hc Hn.
    assert (_claims_need_evidence (claims brief_low) = true) as Hex
      by (apply needs_evidence_iff; by exists c).
    vm_compute in Hex. discriminate Hex.
  - intros m Hm Hp.
    assert (_plastic_present (materials brief_low) = true) as Hex
      by (apply plastic_material_iff; by exists m).
    vm_compute in Hex. discriminate Hex.
  - intros i Hi. vm_compute in Hi. by apply elem_of_nil in Hi.
Defined.

End Claims.

(** ** The approvals of a decision and the template packet *)

Section Packet.

Ltac by_predicates brief :=
  rewrite ?(classify_risk_closed brief); unfold predicates_decision;
  generalize (_age_under_3 (age_grade brief)) as p1;
  generalize (licensed brief) as p2;
  generalize (_claims_need_evidence (claims brief)) as p3;
  generalize (_plastic_present (materials brief)) as p4;
  generalize (_high_severity_issues (issues brief)) as p5;
  intros p5 p4 p3 p2 p1.

Lemma append_each_app {A} (f : A → string) (xs : list A) (lines : list string) :
  append_each f xs lines = lines ++ (f <$> xs).
Proof.
  unfold append_each. revert lines.
  induction xs as [|x xs IH]; intros lines; cbn [foldl].
  - by rewrite fmap_nil, app_nil_r.
  - by rewrite IH, fmap_cons, <- app_assoc.
Qed.

Lemma truthy_true {A} (l : list A) : truthy l = true ↔ l ≠ [].
Proof. by destruct l. Qed.

Lemma required_approvals_closed (decision : ReviewDecision) :
  _required_approvals decision
  = opt_item (ReviewDecision.requires_quality_review decision) "Quality"
    ++ opt_item (ReviewDecision.requires_legal_review decision) "Legal"
    ++ opt_item (ReviewDecision.requires_licensing_review decision) "Licensing"
    ++ opt_item (ReviewDecision.requires_sustainability_review decision) "Sustainability".
Proof. unfold _required_approvals. by destruct decision as [[] [] [] [] ? ? ? ?]. Qed.

(** X1. The approvals listed for the decision of a brief are those of its
    raised flags: Quality for under_3, Licensing for licensed_brand, Legal
    for claims_need_evidence, Sustainability for plastic_present, none for
    high_severity_issues.  They come in the fixed order Quality, Legal,
    Licensing, Sustainability, not in the order of the flags, and none
    twice. *)
Theorem required_approvals_of_flags (brief : ExtractedBrief) :
  let d := classify_risk brief in
  _required_approvals d ≡ₚ omap approval_for_flag (ReviewDecision.risk_flags d)
  ∧ _required_approvals d `sublist_of` ["Quality"; "Legal"; "Licensing"; "Sustainability"]
  ∧ length (_required_approvals d)
    = length (filter (λ f, f ≠ "high_severity_issues") (ReviewDecision.risk_flags d)).
Proof.
  intros d. subst d. by_predicates brief.
  case_bools; vm_compute;
    (split; [repeat first [reflexivity | apply perm_skip | apply perm_swap] |]);
    (split; [repeat constructor | reflexivity]).
Qed.

(** X2. A decision of high risk, and a decision that requires human
    approval, names at least one approving team.  No team is named exactly
    when no flag, or only high_severity_issues, was raised; so a
    medium-risk decision names none exactly when its only flag is
    high_severity_issues. *)
Theorem required_approvals_empty (brief : ExtractedBrief) :
  let d := classify_risk brief in
  (ReviewDecision.risk_level d = high → _required_approvals d ≠ []) ∧
  (ReviewDecision.human_approval_required d = true → _required_approvals d ≠ []) ∧
  (_required_approvals d = [] ↔
     ReviewDecision.risk_flags d = []
     ∨ ReviewDecision.risk_flags d = ["high_severity_issues"]) ∧
  (ReviewDecision.risk_level d = medium →
     (_required_approvals d = [] ↔ ReviewDecision.risk_flags d = ["high_severity_issues"])).
Proof.
  intros d. subst d. by_predicates brief.
  case_bools; vm_compute; intuition congruence.
Qed.

Variable PROMPT_VERSION : string.

Ltac open_template brief decision :=
  unfold _template_lines; rewrite ?append_each_app;
  destruct (truthy (claims brief)),
    (ReviewDecision.requires_legal_review decision),
    (truthy (issues brief)),
    (ReviewDecision.requires_sustainability_review decision),
    (truthy (clarifying_questions brief));
  rewrite <- ?app_assoc; cbn [app].

Ltac find_sections :=
  repeat first
    [ apply sublist_nil_l
    | apply sublist_skip
    | apply sublist_cons
    | apply sublist_inserts_l ].

(** X3. Whatever the brief and the decision, the template packet opens with
    its title, has the headings Summary, Claims, Issues, Materials, Risk,
    Required Approvals and Checklist as lines of their own in this order,
    and closes with the line that names the run, the model and the prompt
    version. *)
Theorem template_sections_in_order (brief : ExtractedBrief) (decision : ReviewDecision)
    (run_id model_name : string) :
  let lines := _template_lines PROMPT_VERSION brief decision run_id model_name in
  head lines = Some "# Packaging Review Packet"
  ∧ TEMPLATE_SECTIONS `sublist_of` lines
  ∧ last lines = Some ("*Run ID:* `" +:+ run_id +:+ "` | *Model:* " +:+ model_name
                       +:+ " | *Prompt:* " +:+ PROMPT_VERSION).
Proof.
  intros lines. subst lines. split; [| split].
  - by open_template brief decision.
  - unfold TEMPLATE_SECTIONS. open_template brief decision; find_sections.
  - unfold _template_lines. apply last_snoc.
Qed.

Lemma occurs_cons {A} (x : A) (block l : list A) :
  occurs_in block l → occurs_in block (x :: l).
Proof. intros (before & after & ->). by exists (x :: before), after. Qed.

Lemma occurs_app {A} (k block l : list A) :
  occurs_in block l → occurs_in block (k ++ l).
Proof. intros (before & after & ->). exists (k ++ before), after. by rewrite <- app_assoc. Qed.

Ltac find_block :=
  repeat lazymatch goal with
         | |- occurs_in _ (?x :: ?l) =>
             first [ by exists [], (drop 4 (x :: l)) | apply occurs_cons ]
         | |- occurs_in _ (_ ++ _) => apply occurs_app
         end.

Ltac find_line :=
  repeat first
    [ apply list_elem_of_here
    | apply list_elem_of_further
    | (apply elem_of_app; right) ].

Lemma claims_need_evidence_truthy (cs : list ClaimObject) :
  _claims_need_evidence cs = true → truthy cs = true.
Proof. by destruct cs. Qed.

(** X4. In the template packet written for a brief and its own decision,
    the note that evidence is needed stands whenever the decision requires
    legal review, and the note that sustainability review is flagged
    whenever it requires sustainability review. *)
Theorem template_shows_review_notes (brief : ExtractedBrief) (run_id model_name : string) :
  let d := classify_risk brief in
  let lines := _template_lines PROMPT_VERSION brief d run_id model_name in
  (ReviewDecision.requires_legal_review d = true → EVIDENCE_NOTE ∈ lines) ∧
  (ReviewDecision.requires_sustainability_review d = true → SUSTAINABILITY_NOTE ∈ lines).
Proof.
  intros d lines. subst lines d. split.
  - intros Hlegal. pose proof Hlegal as Hclaims.
    rewrite legal_is_claims in Hclaims. apply claims_need_evidence_truthy in Hclaims.
    unfold _template_lines. rewrite ?append_each_app, Hclaims, Hlegal.
    destruct (truthy (issues brief)),
      (ReviewDecision.requires_sustainability_review (classify_risk brief)),
      (truthy (clarifying_questions brief));
      rewrite <- ?app_assoc; cbn [app]; find_line.
  - intros Hsust. unfold _template_lines. rewrite ?append_each_app, Hsust.
    destruct (truthy (claims brief)),
      (ReviewDecision.requires_legal_review (classify_risk brief)),
      (truthy (issues brief)),
      (truthy (clarifying_questions brief));
      rewrite <- ?app_assoc; cbn [app]; find_line.
Qed.

(** X5. In every template packet the heading Required Approvals is followed
    at once by one line that lists the approvals [_required_approvals]
    computes for the decision, each as a bullet, or by "- None" when there
    are none; then come an empty line and the heading Checklist. *)
Theorem template_prints_required_approvals (brief : ExtractedBrief)
    (decision : ReviewDecision) (run_id model_name : string) :
  occurs_in
    ["## Required Approvals"; approvals_line (_required_approvals decision); "";
     "## Checklist"]
    (_template_lines PROMPT_VERSION brief decision run_id model_name).
Proof.
  unfold _template_lines, _required_approvals. rewrite ?append_each_app.
  destruct (truthy (claims brief)),
    (ReviewDecision.requires_quality_review decision),
    (ReviewDecision.requires_legal_review decision),
    (ReviewDecision.requires_licensing_review decision),
    (ReviewDecision.requires_sustainability_review decision),
    (truthy (issues brief)),
    (truthy (clarifying_questions brief));
    rewrite <- ?app_assoc; cbn [app truthy approvals_line]; find_block.
Qed.

End Packet.

Lemma template_shows_review_notes_witness :
  EVIDENCE_NOTE
    ∈ _template_lines "packet-draft-001" DEMO_BRIEF (classify_risk DEMO_BRIEF)
        "run-1" "demo (no LLM)"
  ∧ SUSTAINABILITY_NOTE
    ∈ _template_lines "packet-draft-001" DEMO_BRIEF (classify_risk DEMO_BRIEF)
        "run-1" "demo (no LLM)".
Proof.
  split.
  - apply (proj1 (template_shows_review_notes "packet-draft-001" DEMO_BRIEF
                    "run-1" "demo (no LLM)")).
    reflexivity.
  - apply (proj2 (template_shows_review_notes "packet-draft-001" DEMO_BRIEF
                    "run-1" "demo (no LLM)")).
    reflexivity.
Defined.

(** ** The JSON text of a response *)

Section JsonText.

Example json_text_samples :
  _json_text ("Here you go:" +:+ NL +:+ "```json" +:+ NL +:+ "{}" +:+ NL +:+ "```" +:+ NL) = Some "{}"
  ∧ _json_text ("  {} ") = Some "{}"
  ∧ _json_text ("```" +:+ NL +:+ "{}" +:+ NL +:+ "```") = Some "{}"
  ∧ _json_text ("```json" +:+ NL +:+ "{}") = None
  ∧ _json_text ("```" +:+ NL +:+ "{}" +:+ NL +:+ "```json") = None.
Proof. by repeat split. Qed.

Lemma str_app_assoc (a b c : string) : (a +:+ b) +:+ c = a +:+ b +:+ c.
Proof. induction a as [|x a IH]; [done |]. by rewrite !app_cons, IH. Qed.

Lemma str_app_nil_r (s : string) : s +:+ "" = s.
Proof. induction s as [|x s IH]; [done |]. by rewrite app_cons, IH. Qed.

Lemma is_substring_refl (s : string) : is_substring s s.
Proof. exists "", "". by rewrite app_nil_l, str_app_nil_r. Qed.

Lemma is_substring_trans (a b c : string) :
  is_substring a b → is_substring b c → is_substring a c.
Proof.
  intros (p1 & q1 & ->) (p2 & q2 & ->). exists (p2 +:+ p1), (q1 +:+ q2).
  by rewrite !str_app_assoc.
Qed.

Lemma contains_mono (x a b : string) :
  is_substring a b → contains x a = true → contains x b = true.
Proof. rewrite !contains_spec. intros Hab Hxa. by apply (is_substring_trans x a b). Qed.

Lemma contains_false_mono (x a b : string) :
  is_substring a b → contains x b = false → contains x a = false.
Proof.
  intros Hab Hb. apply not_true_is_false. intros Ha.
  apply (contains_mono x a b Hab) in Ha. congruence.
Qed.

Lemma is_substring_app_l (a b : string) : is_substring a (a +:+ b).
Proof. exists "", b. by rewrite app_nil_l. Qed.

Lemma is_substring_app_r (a b : string) : is_substring b (a +:+ b).
Proof. exists a, "". by rewrite str_app_nil_r. Qed.

(** Both strips cut a string out of the middle. *)
Lemma lstrip_suffix (s : string) : ∃ ws, s = ws +:+ lstrip s.
Proof.
  induction s as [|a s [ws IH]]; [by exists "" |].
  cbn [lstrip]. destruct (is_space a).
  - exists (String a ws). by rewrite app_cons, <- IH.
  - by exists "".
Qed.

Lemma rstrip_prefix (s : string) : ∃ ws, s = rstrip s +:+ ws.
Proof.
  induction s as [|a s [ws IH]]; [by exists "" |].
  cbn [rstrip]. destruct (rstrip s) as [|b r].
  - rewrite app_nil_l in IH. subst ws. destruct (is_space a).
    + by exists (String a s).
    + by exists s.
  - exists ws. by rewrite app_cons, <- IH.
Qed.

Lemma strip_substring (s : string) : is_substring (strip s) s.
Proof.
  unfold strip. destruct (lstrip_suffix s) as [l Hl].
  destruct (rstrip_prefix (lstrip s)) as [r Hr].
  exists l, r. by rewrite <- Hr.
Qed.

Lemma lstrip_nonspace (c : ascii) (s : string) :
  is_space c = false → lstrip (String c s) = String c s.
Proof. intros Hc. cbn [lstrip]. by rewrite Hc. Qed.

Lemma lstrip_head (s : string) :
  lstrip s = "" ∨ ∃ c r, lstrip s = String c r ∧ is_space c = false.
Proof.
  induction s as [|a s IH]; [by left |].
  cbn [lstrip]. destruct (is_space a) eqn:Ha; [done |]. right. by exists a, s.
Qed.

Lemma rstrip_idem (s : string) : rstrip (rstrip s) = rstrip s.
Proof.
  induction s as [|a s IH]; [done |].
  cbn [rstrip]. destruct (rstrip s) as [|b r] eqn:Hr.
  - destruct (is_space a) eqn:Ha; [done |]. cbn [rstrip]. by rewrite Ha.
  - rewrite rstrip_cons_keep; by rewrite IH.
Qed.

Lemma strip_idem (s : string) : strip (strip s) = strip s.
Proof.
  unfold strip. destruct (lstrip_head s) as [-> | (c & r & -> & Hc)]; [done |].
  rewrite rstrip_cons_nonspace by done.
  rewrite lstrip_nonspace by done.
  by rewrite <- (rstrip_cons_nonspace c r), rstrip_idem.
Qed.

Lemma contains_char_cons (c a : ascii) (s : string) :
  contains (String c "") (String a s) = Ascii.eqb c a || contains (String c "") s.
Proof. cbn [contains startswith]. by destruct (Ascii.eqb c a), s. Qed.

Lemma find_contains (x s : string) : contains x s = true ↔ is_Some (find x s).
Proof.
  induction s as [|a s IH]; cbn [contains find].
  - rewrite orb_false_r. destruct (startswith x ""); [by split; eauto |].
    split; [done | by intros [? ?]].
  - destruct (startswith x (String a s)); [by split; eauto |].
    rewrite orb_false_l, IH. by rewrite fmap_is_Some.
Qed.

Lemma find_none (x s : string) : contains x s = false → find x s = None.
Proof.
  intros Hc. destruct (find x s) as [i|] eqn:Hf; [| done].
  assert (contains x s = true) by (apply find_contains; eauto). congruence.
Qed.

(** Where the first character of [sub] does not occur, [sub] does not. *)
Lemma contains_first_char (c : ascii) (sub s : string) :
  contains (String c "") s = false → contains (String c sub) s = false.
Proof.
  induction s as [|a s IH]; [done |].
  rewrite contains_char_cons. intros [Ha Hs]%orb_false_iff.
  cbn [contains startswith]. by rewrite Ha, (IH Hs).
Qed.

Lemma startswith_app (x post : string) : startswith x (x +:+ post) = true.
Proof. apply startswith_spec. by exists post. Qed.

Lemma find_after_prefix (c : ascii) (sub pre post : string) :
  contains (String c "") pre = false →
  find (String c sub) (pre +:+ String c sub +:+ post) = Some (String.length pre).
Proof.
  induction pre as [|a pre IH].
  - intros _. rewrite app_nil_l.
    destruct (String c sub +:+ post) eqn:Heq; [done |].
    cbn [find]. by rewrite <- Heq, startswith_app.
  - rewrite contains_char_cons. intros [Ha Hpre]%orb_false_iff.
    rewrite app_cons. cbn [find startswith]. by rewrite Ha, (IH Hpre).
Qed.

Lemma str_drop_app (pre s : string) (n : nat) :
  str_drop (String.length pre + n) (pre +:+ s) = str_drop n s.
Proof. induction pre as [|a pre IH]; [done |]. by rewrite app_cons. Qed.

Lemma str_take_app (pre s : string) : str_take (String.length pre) (pre +:+ s) = pre.
Proof.
  induction pre as [|a pre IH]; [by destruct s |].
  rewrite app_cons. cbn [String.length str_take]. by rewrite IH.
Qed.

Lemma str_take_drop (n : nat) (s : string) : s = str_take n s +:+ str_drop n s.
Proof.
  revert s. induction n as [|n IH]; intros [|a s]; try done.
  cbn [str_take str_drop]. by rewrite app_cons, <- IH.
Qed.

Lemma slice_substring (s : string) (start end_ : nat) : is_substring (slice s start end_) s.
Proof.
  unfold slice. apply (is_substring_trans _ (str_drop start s)).
  - rewrite (str_take_drop (end_ - start) (str_drop start s)) at 2.
    apply is_substring_app_l.
  - rewrite (str_take_drop start s) at 2. apply is_substring_app_r.
Qed.

Lemma startswith_take (x s : string) (n : nat) :
  startswith x (str_take n s) = true → startswith x s = true.
Proof.
  rewrite !startswith_spec. intros [post Hp].
  exists (post +:+ str_drop n s). by rewrite <- str_app_assoc, <- Hp, <- str_take_drop.
Qed.

(** [find] returns the first place: [sub] does not fit before it. *)
Lemma find_take (c : ascii) (sub s : string) (i : nat) :
  find (String c sub) s = Some i → contains (String c sub) (str_take i s) = false.
Proof.
  revert i. induction s as [|a s IH]; intros i; cbn [find].
  - by destruct i.
  - destruct (startswith (String c sub) (String a s)) eqn:Hsw.
    + by intros [= <-].
    + destruct (find (String c sub) s) as [j|]; [| done].
      intros [= <-]. cbn [str_take contains]. rewrite (IH j eq_refl), orb_false_r.
      apply not_true_is_false. intros Ht.
      apply (startswith_take _ (String a s) (S j)) in Ht. congruence.
Qed.

Lemma lstrip_app_nonspace (c : ascii) (pre rest : string) :
  is_space c = false →
  ∃ pre', is_substring pre' pre
          ∧ lstrip (pre +:+ String c rest) = pre' +:+ String c rest.
Proof.
  intros Hc. induction pre as [|a pre (pre' & Hsub & IH)].
  - exists "". split; [apply is_substring_refl |].
    rewrite !app_nil_l. by apply lstrip_nonspace.
  - rewrite app_cons. cbn [lstrip]. destruct (is_space a).
    + exists pre'. split; [| done].
      apply (is_substring_trans _ pre); [done |].
      exists (String a ""), "". by rewrite str_app_nil_r.
    + exists (String a pre). split; [apply is_substring_refl | by rewrite app_cons].
Qed.

Lemma rstrip_app_nonspace (c : ascii) (pre post : string) :
  is_space c = false →
  ∃ post', is_substring post' post
           ∧ rstrip (pre +:+ String c post) = pre +:+ String c post'.
Proof.
  intros Hc. induction pre as [|a pre (post' & Hsub & IH)].
  - exists (rstrip post). split.
    + destruct (rstrip_prefix post) as [ws Hws]. rewrite Hws at 2.
      apply is_substring_app_l.
    + rewrite !app_nil_l. by apply rstrip_cons_nonspace.
  - exists post'. split; [done |].
    rewrite !app_cons, rstrip_cons_keep; rewrite IH; [done |]. by destruct pre.
Qed.

(** The stripped form of a text with a character that is no whitespace
    near each end. *)
Lemma strip_between (pre mid post : string) (c d : ascii) :
  is_space c = false → is_space d = false →
  ∃ pre' post',
    is_substring pre' pre ∧ is_substring post' post ∧
    strip (pre +:+ String c (mid +:+ String d post))
    = pre' +:+ String c (mid +:+ String d post').
Proof.
  intros Hc Hd. unfold strip.
  destruct (lstrip_app_nonspace c pre (mid +:+ String d post) Hc) as (pre' & Hpre & ->).
  replace (pre' +:+ String c (mid +:+ String d post))
    with ((pre' +:+ String c mid) +:+ String d post)
    by (by rewrite str_app_assoc, app_cons).
  destruct (rstrip_app_nonspace d (pre' +:+ String c mid) post Hd) as (post' & Hpost & ->).
  exists pre', post'. split; [done |]. split; [done |].
  by rewrite str_app_assoc, app_cons.
Qed.

Lemma index_0 (sub s : string) : index sub s 0 = find sub s.
Proof. unfold index. cbn [str_drop]. by destruct (find sub s). Qed.

Lemma str_drop_all (pre s : string) : str_drop (String.length pre) (pre +:+ s) = s.
Proof. induction pre as [|a pre IH]; [done |]. by rewrite app_cons. Qed.

(** The two [index] calls and the slice, on a text whose fence is closed. *)
Lemma fence_slice (sub pre body post : string) :
  contains "`" pre = false → contains "`" body = false →
  let opener := String "`" sub in
  let t := pre +:+ opener +:+ body +:+ "```" +:+ post in
  (i ← index opener t 0;
   end_ ← index "```" t (i + String.length opener);
   Some (strip (slice t (i + String.length opener) end_)))
  = Some (strip body).
Proof.
  intros Hpre Hbody opener t. subst t opener. rewrite index_0.
  rewrite (find_after_prefix _ _ _ _ Hpre). cbn [mbind option_bind].
  unfold index, slice. rewrite str_drop_app, str_drop_all.
  rewrite (find_after_prefix "`" "``" body post Hbody).
  cbn [fmap option_fmap option_map mbind option_bind].
  replace (String.length pre + String.length (String "`" sub) + String.length body
           - (String.length pre + String.length (String "`" sub)))%nat
    with (String.length body) by lia.
  by rewrite str_take_app.
Qed.

(** The same on a text whose fence is left open. *)
Lemma fence_open (sub pre body : string) :
  contains "`" pre = false → contains "`" body = false →
  let opener := String "`" sub in
  let t := pre +:+ opener +:+ body in
  (i ← index opener t 0;
   end_ ← index "```" t (i + String.length opener);
   Some (strip (slice t (i + String.length opener) end_)))
  = None.
Proof.
  intros Hpre Hbody opener t. subst t opener. rewrite index_0.
  rewrite (find_after_prefix _ _ _ _ Hpre). cbn [mbind option_bind].
  unfold index. rewrite str_drop_app, str_drop_all.
  by rewrite (find_none "```" body (contains_first_char "`" "``" body Hbody)).
Qed.

Lemma contains_cons (x : string) (a : ascii) (s : string) :
  contains x (String a s) = startswith x (String a s) || contains x s.
Proof. done. Qed.

Lemma startswith_cons (c : ascii) (x s : string) :
  startswith (String c x) (String c s) = startswith x s.
Proof. cbn [startswith]. by rewrite Ascii.eqb_refl. Qed.

Lemma startswith_first_char (c : ascii) (x s : string) :
  contains (String c "") s = false → startswith (String c x) s = false.
Proof.
  destruct s as [|a s]; [done |].
  rewrite contains_char_cons. intros [Ha _]%orb_false_iff.
  cbn [startswith]. by rewrite Ha.
Qed.

Lemma no_json_fence (pre body : string) :
  contains "`" pre = false → contains "`" body = false →
  startswith "json" body = false →
  contains "```json" (pre +:+ "```" +:+ body) = false.
Proof.
  intros Hpre Hbody Hjson. induction pre as [|a pre IH].
  - rewrite app_nil_l.
    change ("```" +:+ body) with (String "`" (String "`" (String "`" body))).
    rewrite !contains_cons, !startswith_cons, Hjson.
    rewrite !(startswith_first_char "`" _ body Hbody).
    by rewrite (contains_first_char "`" "``json" body Hbody).
  - rewrite contains_char_cons in Hpre. apply orb_false_iff in Hpre as [Ha Hpre].
    rewrite app_cons. cbn [contains startswith]. by rewrite Ha, (IH Hpre).
Qed.

(** Stripping neither removes nor creates an occurrence of a string that
    has no whitespace in it. *)
Lemma startswith_space (c a : ascii) (x s : string) :
  is_space c = false → is_space a = true → startswith (String c x) (String a s) = false.
Proof.
  intros Hc Ha. cbn [startswith]. destruct (Ascii.eqb_spec c a) as [-> |]; [| done].
  congruence.
Qed.

Lemma contains_lstrip (c : ascii) (x s : string) :
  is_space c = false → contains (String c x) (lstrip s) = contains (String c x) s.
Proof.
  intros Hc. induction s as [|a s IH]; [done |].
  cbn [lstrip]. destruct (is_space a) eqn:Ha; [| done].
  by rewrite contains_cons, (startswith_space c a x s Hc Ha).
Qed.

Lemma startswith_rstrip (x s : string) :
  no_space x = true → startswith x (rstrip s) = startswith x s.
Proof.
  revert x. induction s as [|a s IH]; intros x Hx; [done |].
  destruct x as [|c x]; [done |].
  cbn [no_space] in Hx. apply andb_true_iff in Hx as [Hc%negb_true_iff Hx].
  specialize (IH x Hx). cbn [rstrip]. destruct (rstrip s) as [|b r].
  - destruct (is_space a) eqn:Ha.
    + by rewrite (startswith_space c a x s Hc Ha).
    + cbn [startswith]. destruct (Ascii.eqb c a); [| done]. by rewrite <- IH.
  - cbn [startswith]. destruct (Ascii.eqb c a); [| done]. by rewrite <- IH.
Qed.

Lemma contains_rstrip (c : ascii) (x s : string) :
  no_space (String c x) = true →
  contains (String c x) (rstrip s) = contains (String c x) s.
Proof.
  intros Hx. induction s as [|a s IH]; [done |].
  rewrite contains_cons, <- IH, <- (startswith_rstrip _ (String a s) Hx).
  cbn [rstrip]. destruct (rstrip s) as [|b r].
  - destruct (is_space a); [done |]. by rewrite contains_cons.
  - by rewrite contains_cons.
Qed.

Lemma contains_strip (c : ascii) (x s : string) :
  no_space (String c x) = true →
  contains (String c x) (strip s) = contains (String c x) s.
Proof.
  intros Hx. unfold strip. rewrite (contains_rstrip c x _ Hx).
  apply contains_lstrip. cbn [no_space] in Hx.
  by apply andb_true_iff in Hx as [Hc%negb_true_iff _].
Qed.

(** The block cut out up to the closing fence. *)
Lemma sliced_block (t : string) (start end_ : nat) :
  index "```" t start = Some end_ →
  strip (strip (slice t start end_)) = strip (slice t start end_)
  ∧ is_substring (strip (slice t start end_)) t
  ∧ contains "```" (strip (slice t start end_)) = false.
Proof.
  unfold index. destruct (find "```" (str_drop start t)) as [j|] eqn:Hj; [| done].
  intros [= <-]. split; [apply strip_idem |]. split.
  - apply (is_substring_trans _ (slice t start (start + j))).
    + apply strip_substring.
    + apply slice_substring.
  - apply (contains_false_mono _ _ _ (strip_substring _)). unfold slice.
    replace (start + j - start)%nat with j by lia.
    by apply (find_take "`" "``").
Qed.

Lemma json_text_invariant (text p : string) :
  _json_text text = Some p →
  strip p = p ∧ is_substring p text
  ∧ (contains "```" text = true → contains "```" p = false).
Proof.
  unfold _json_text. cbv zeta. intros Hp.
  pose proof (strip_substring text) as Hsub.
  destruct (contains "```json" (strip text)).
  - destruct (index "```json" (strip text) 0) as [i|]; [| done]. cbn in Hp.
    destruct (index "```" (strip text) (i + 7)) as [e|] eqn:He; [| done].
    injection Hp as <-. destruct (sliced_block _ _ _ He) as (H1 & H2 & H3).
    split; [done |]. split; [| done]. by apply (is_substring_trans _ (strip text)).
  - destruct (contains "```" (strip text)) eqn:Hfence.
    + destruct (index "```" (strip text) 0) as [i|]; [| done]. cbn in Hp.
      destruct (index "```" (strip text) (i + 3)) as [e|] eqn:He; [| done].
      injection Hp as <-. destruct (sliced_block _ _ _ He) as (H1 & H2 & H3).
      split; [done |]. split; [| done]. by apply (is_substring_trans _ (strip text)).
    + injection Hp as <-. split; [apply strip_idem |]. split; [done |].
      intros Hf. rewrite (contains_strip "`" "``" text eq_refl) in Hfence. congruence.
Qed.

Context {JSONValue : Type} (json_loads : string → option JSONValue).

(** X9. Whenever a value is returned, it was parsed from a piece of the
    reply that has no whitespace at either end; and if the reply holds a
    fence of three backticks, the parsed piece holds none. *)
Theorem extract_json_parses_trimmed_block (text : string) (v : JSONValue) :
  extract_json_from_response JSONValue json_loads text = Some v →
  ∃ p, json_loads p = Some v
       ∧ strip p = p
       ∧ is_substring p text
       ∧ (contains "```" text = true → contains "```" p = false).
Proof.
  unfold extract_json_from_response.
  destruct (_json_text text) as [p|] eqn:Hp; [| done].
  intros Hv. exists p. split; [done |]. by apply json_text_invariant.
Qed.

(** X6. When the reply carries a block fenced by three backticks and the
    word json, closed by three backticks, with no backtick in the prose
    before it nor in the block, the parser is given the block, trimmed:
    whatever surrounds the fences is dropped. *)
Theorem extract_json_fenced (pre body post : string) :
  contains "`" pre = false → contains "`" body = false →
  extract_json_from_response JSONValue json_loads
    (pre +:+ "```json" +:+ body +:+ "```" +:+ post)
  = json_loads (strip body).
Proof.
  intros Hpre Hbody. unfold extract_json_from_response.
  assert (_json_text (pre +:+ "```json" +:+ body +:+ "```" +:+ post) = Some (strip body))
    as ->; [| done].
  destruct (strip_between pre ("``json" +:+ body +:+ "``") post "`" "`" eq_refl eq_refl)
    as (pre' & post' & Hpre' & _ & Hstrip).
  assert (∀ a b, a +:+ String "`" (("``json" +:+ body +:+ "``") +:+ String "`" b)
                 = a +:+ "```json" +:+ body +:+ "```" +:+ b) as Hshape.
  { intros a b. by rewrite !str_app_assoc. }
  rewrite !Hshape in Hstrip. unfold _json_text. cbv zeta. rewrite Hstrip.
  replace (contains "```json" (pre' +:+ "```json" +:+ body +:+ "```" +:+ post')) with true
    by (symmetry; apply contains_spec; by eexists _, _).
  exact (fence_slice "``json" pre' body post'
           (contains_false_mono _ _ _ Hpre' Hpre) Hbody).
Qed.

(** X7. The same holds for a block between two bare fences of three
    backticks, in a reply in which the word json follows no fence. *)
Theorem extract_json_bare_fence (pre body post : string) :
  contains "`" pre = false → contains "`" body = false →
  contains "```json" (pre +:+ "```" +:+ body +:+ "```" +:+ post) = false →
  extract_json_from_response JSONValue json_loads
    (pre +:+ "```" +:+ body +:+ "```" +:+ post)
  = json_loads (strip body).
Proof.
  intros Hpre Hbody Hnojson. unfold extract_json_from_response.
  assert (_json_text (pre +:+ "```" +:+ body +:+ "```" +:+ post) = Some (strip body))
    as ->; [| done].
  destruct (strip_between pre ("``" +:+ body +:+ "``") post "`" "`" eq_refl eq_refl)
    as (pre' & post' & Hpre' & _ & Hstrip).
  assert (∀ a b, a +:+ String "`" (("``" +:+ body +:+ "``") +:+ String "`" b)
                 = a +:+ "```" +:+ body +:+ "```" +:+ b) as Hshape.
  { intros a b. by rewrite !str_app_assoc. }
  rewrite !Hshape in Hstrip. unfold _json_text. cbv zeta.
  pose proof (strip_substring (pre +:+ "```" +:+ body +:+ "```" +:+ post)) as Hsub.
  rewrite (contains_false_mono _ _ _ Hsub Hnojson). rewrite Hstrip.
  replace (contains "```" (pre' +:+ "```" +:+ body +:+ "```" +:+ post')) with true
    by (symmetry; apply contains_spec; by eexists _, _).
  exact (fence_slice "``" pre' body post'
           (contains_false_mono _ _ _ Hpre' Hpre) Hbody).
Qed.

(** X8. A reply whose fence is opened and never closed raises, whatever
    follows the fence: a block cut off before its closing fence is not
    parsed, even when it is valid JSON. *)
Theorem extract_json_unclosed_fence (pre body : string) :
  contains "`" pre = false → contains "`" body = false →
  extract_json_from_response JSONValue json_loads (pre +:+ "```json" +:+ body) = None
  ∧ extract_json_from_response JSONValue json_loads (pre +:+ "```" +:+ body) = None.
Proof.
  intros Hpre Hbody. unfold extract_json_from_response. split.
  - assert (_json_text (pre +:+ "```json" +:+ body) = None) as ->; [| done].
    destruct (strip_between pre "``jso" body "`" "n" eq_refl eq_refl)
      as (pre' & body' & Hpre' & Hbody' & Hstrip).
    unfold _json_text. cbv zeta.
    change (pre +:+ "```json" +:+ body)
      with (pre +:+ String "`" ("``jso" +:+ String "n" body)).
    rewrite Hstrip.
    change (pre' +:+ String "`" ("``jso" +:+ String "n" body'))
      with (pre' +:+ "```json" +:+ body').
    replace (contains "```json" (pre' +:+ "```json" +:+ body')) with true
      by (symmetry; apply contains_spec; by eexists _, _).
    exact (fence_open "``json" pre' body'
             (contains_false_mono _ _ _ Hpre' Hpre)
             (contains_false_mono _ _ _ Hbody' Hbody)).
  - assert (_json_text (pre +:+ "```" +:+ body) = None) as ->; [| done].
    destruct (strip_between pre "`" body "`" "`" eq_refl eq_refl)
      as (pre' & body' & Hpre' & Hbody' & Hstrip).
    unfold _json_text. cbv zeta.
    change (pre +:+ "```" +:+ body) with (pre +:+ String "`" ("`" +:+ String "`" body)).
    rewrite Hstrip.
    change (pre' +:+ String "`" ("`" +:+ String "`" body'))
      with (pre' +:+ "```" +:+ body').
    pose proof (contains_false_mono _ _ _ Hpre' Hpre) as Hp.
    pose proof (contains_false_mono _ _ _ Hbody' Hbody) as Hb.
    destruct (startswith "json" body') eqn:Hjson.
    + apply startswith_spec in Hjson as [rest ->].
      change (pre' +:+ "```" +:+ "json" +:+ rest) with (pre' +:+ "```json" +:+ rest).
      replace (contains "```json" (pre' +:+ "```json" +:+ rest)) with true
        by (symmetry; apply contains_spec; by eexists _, _).
      exact (fence_open "``json" pre' rest Hp
               (contains_false_mono _ _ _ (is_substring_app_r "json" rest) Hb)).
    + rewrite (no_json_fence pre' body' Hp Hb Hjson).
      replace (contains "```" (pre' +:+ "```" +:+ body')) with true
        by (symmetry; apply contains_spec; by eexists _, _).
      exact (fence_open "``" pre' body' Hp Hb).
Qed.

End JsonText.

Lemma extract_json_fenced_witness :
  extract_json_from_response string Some
    ("Here is the brief:" +:+ NL +:+ "```json" +:+ (NL +:+ "{}" +:+ NL) +:+ "```" +:+ " Done.")
  = Some "{}".
Proof.
  apply (extract_json_fenced Some ("Here is the brief:" +:+ NL) (NL +:+ "{}" +:+ NL) " Done.");
    reflexivity.
Defined.

Lemma extract_json_bare_fence_witness :
  extract_json_from_response string Some
    ("" +:+ "```" +:+ (NL +:+ "{}" +:+ NL) +:+ "```" +:+ NL)
  = Some "{}".
Proof.
  apply (extract_json_bare_fence Some "" (NL +:+ "{}" +:+ NL) NL); reflexivity.
Defined.

Lemma extract_json_unclosed_fence_witness :
  extract_json_from_response string Some ("Sure. " +:+ "```json" +:+ (NL +:+ "{}")) = None
  ∧ extract_json_from_response string Some ("Sure. " +:+ "```" +:+ (NL +:+ "{}")) = None.
Proof.
  apply (extract_json_unclosed_fence Some "Sure. " (NL +:+ "{}")); reflexivity.
Defined.

Lemma extract_json_parses_trimmed_block_witness :
  ∃ p, Some p = Some "{}" ∧ strip p = p
       ∧ is_substring p ("```json" +:+ NL +:+ "{}" +:+ NL +:+ "```")
       ∧ (contains "```" ("```json" +:+ NL +:+ "{}" +:+ NL +:+ "```") = true →
          contains "```" p = false).
Proof.
  apply (extract_json_parses_trimmed_block Some
           ("```json" +:+ NL +:+ "{}" +:+ NL +:+ "```") "{}").
  reflexivity.
Defined.

(** ** The repair of claims and issues *)

Section NormalizeClaims.

Context {number : Type} (number_truthy : number → bool) (py_repr : JSON number → string).

Implicit Types (data : list (string * JSON number)) (v : JSON number) (k : string).

Local Abbreviation truth := (py_bool number_truthy).

Lemma dict_get_set_eq k v data : dict_get k (dict_set k v data) = Some v.
Proof.
  induction data as [|[k' v'] data IH]; cbn [dict_set dict_get].
  - by rewrite String.eqb_refl.
  - destruct (String.eqb k' k) eqn:Hk; cbn [dict_get]; [| by rewrite Hk].
    by rewrite String.eqb_refl.
Qed.

Lemma dict_get_set_ne k k' v data :
  k ≠ k' → dict_get k' (dict_set k v data) = dict_get k' data.
Proof.
  intros Hne. induction data as [|[k0 v0] data IH]; cbn [dict_set dict_get].
  - by apply String.eqb_neq in Hne as ->.
  - destruct (String.eqb k0 k) eqn:Hk; cbn [dict_get]; [| by rewrite IH].
    apply String.eqb_eq in Hk as ->. by apply String.eqb_neq in Hne as ->.
Qed.

Lemma dict_set_get_id k v data : dict_get k data = Some v → dict_set k v data = data.
Proof.
  induction data as [|[k0 v0] data IH]; cbn [dict_set dict_get]; [done |].
  destruct (String.eqb k0 k) eqn:Hk.
  - apply String.eqb_eq in Hk as ->. by intros [= ->].
  - intros Hget. by rewrite IH.
Qed.

Lemma dict_set_keys k v v' data :
  dict_get k data = Some v → (dict_set k v' data).*1 = data.*1.
Proof.
  induction data as [|[k0 v0] data IH]; cbn [dict_set dict_get]; [done |].
  destruct (String.eqb k0 k) eqn:Hk.
  - apply String.eqb_eq in Hk as ->. by intros _.
  - intros Hget. by rewrite !fmap_cons, IH.
Qed.

Lemma normalize_as_repairs data :
  _normalize_claims number_truthy py_repr data
  = repair_key number_truthy "claims" (default_claim py_repr) data
    ≫= repair_key number_truthy "issues" (default_issue py_repr).
Proof. done. Qed.

Section RepairKey.

Variables (key : string) (dflt : JSON number → JSON number).
Hypothesis dflt_dict : ∀ c, is_dict (dflt c) = true.

Local Abbreviation repair := (repair_key number_truthy key dflt).

Lemma repair_key_none data :
  repair data = None ↔ ∃ v, dict_get key data = Some v ∧ not_iterable number_truthy v.
Proof.
  unfold repair_key, not_iterable. destruct (dict_get key data) as [v|]; cycle 1.
  { split; [done | by intros (v & ? & _)]. }
  split.
  - intros Hnone. exists v. split; [done |].
    destruct v as [|[]|n|s|l|kv]; cbn in Hnone; try done.
    + by left.
    + right. exists n. split; [done |]. by destruct (number_truthy n).
    + by destruct (negb _).
    + by destruct (truthy l).
    + by destruct (truthy kv).
  - intros (v' & [= <-] & [-> | (n & -> & Hn)]); cbn; [done |]. by rewrite Hn.
Qed.

Lemma repair_key_some data data' :
  repair data = Some data' →
  data'.*1 = data.*1
  ∧ dict_get key data' = repaired number_truthy dflt <$> dict_get key data
  ∧ ∀ k, k ≠ key → dict_get k data' = dict_get k data.
Proof.
  unfold repair_key. destruct (dict_get key data) as [v|] eqn:Hget; cycle 1.
  { intros [= <-]. by rewrite Hget. }
  cbn [fmap option_fmap option_map]. unfold repaired.
  destruct (truth v); cycle 1.
  { intros [= <-]. by rewrite Hget. }
  destruct (py_iter v) as [cs|]; [| done]. cbn. intros [= <-].
  split; [by apply (dict_set_keys _ v) |]. split; [by rewrite dict_get_set_eq |].
  intros k Hk. by apply dict_get_set_ne.
Qed.

Lemma repaired_well_formed v :
  ¬ not_iterable number_truthy v →
  well_formed_list number_truthy (repaired number_truthy dflt v).
Proof.
  unfold repaired, well_formed_list, not_iterable. intros Hok.
  destruct (truth v) eqn:Htruth; [| by left].
  destruct (py_iter v) as [cs|] eqn:Hiter.
  - right. eexists. split; [done |]. apply Forall_fmap, Forall_true.
    intros c. cbn. destruct (is_dict c) eqn:Hc; [done | apply dflt_dict].
  - exfalso. apply Hok. destruct v as [|[]|n|s|l|kv]; try done.
    + by left.
    + right. by exists n.
Qed.

Lemma repaired_of_well_formed v :
  well_formed_list number_truthy v → repaired number_truthy dflt v = v.
Proof.
  unfold repaired. intros [-> | (l & -> & Hall)]; [done |].
  destruct (truth (JList l)); [| done]. cbn. f_equal.
  induction Hall as [|c l Hc _ IH]; [done |]. by rewrite fmap_cons, Hc, IH.
Qed.

Lemma repair_key_well_formed data :
  (∀ v, dict_get key data = Some v → well_formed_list number_truthy v) →
  repair data = Some data.
Proof.
  intros Hwf. unfold repair_key.
  destruct (dict_get key data) as [v|] eqn:Hget; [| done].
  pose proof (repaired_of_well_formed v (Hwf v eq_refl)) as Hrep.
  destruct (Hwf v eq_refl) as [Hf | (l & -> & _)]; [by rewrite Hf |].
  unfold repaired in Hrep. destruct (truth (JList l)); [| done].
  cbn in *. by rewrite Hrep, (dict_set_get_id _ _ _ Hget).
Qed.

End RepairKey.

Lemma normalize_some data data' :
  _normalize_claims number_truthy py_repr data = Some data' →
  data'.*1 = data.*1
  ∧ dict_get "claims" data'
    = repaired number_truthy (default_claim py_repr) <$> dict_get "claims" data
  ∧ dict_get "issues" data'
    = repaired number_truthy (default_issue py_repr) <$> dict_get "issues" data
  ∧ ∀ k, k ≠ "claims" → k ≠ "issues" → dict_get k data' = dict_get k data.
Proof.
  rewrite normalize_as_repairs.
  destruct (repair_key number_truthy "claims" _ data) as [d1|] eqn:H1; [| done].
  cbn [mbind option_bind]. intros H2.
  apply repair_key_some in H1 as (Hk1 & Hc1 & Hf1).
  apply repair_key_some in H2 as (Hk2 & Hi2 & Hf2).
  split; [congruence |]. split; [by rewrite Hf2, Hc1 |].
  split; [by rewrite Hi2, Hf1 |].
  intros k Hc Hi. rewrite Hf2, Hf1; done.
Qed.

Lemma normalize_none_iff data :
  _normalize_claims number_truthy py_repr data = None ↔
  (∃ v, dict_get "claims" data = Some v ∧ not_iterable number_truthy v)
  ∨ (∃ v, dict_get "issues" data = Some v ∧ not_iterable number_truthy v).
Proof.
  rewrite normalize_as_repairs, <- (repair_key_none "claims" (default_claim py_repr)).
  destruct (repair_key number_truthy "claims" _ data) as [d1|] eqn:H1;
    cbn [mbind option_bind]; [| by split; [left |]].
  apply repair_key_some in H1 as (_ & _ & Hf1).
  rewrite repair_key_none, Hf1 by done.
  split; [by right | by intros [? | ?]].
Qed.

Lemma normalize_entries data data' :
  _normalize_claims number_truthy py_repr data = Some data' →
  (∀ v, dict_get "claims" data' = Some v → well_formed_list number_truthy v)
  ∧ (∀ v, dict_get "issues" data' = Some v → well_formed_list number_truthy v).
Proof.
  intros Hsome.
  assert (_normalize_claims number_truthy py_repr data ≠ None) as Hok by congruence.
  rewrite normalize_none_iff in Hok.
  apply normalize_some in Hsome as (_ & Hc & Hi & _).
  split; intros v Hv.
  - rewrite Hc in Hv. destruct (dict_get "claims" data) as [v0|] eqn:H0; [| done].
    injection Hv as <-. apply repaired_well_formed; [done |].
    intros Hbad. apply Hok. left. by exists v0.
  - rewrite Hi in Hv. destruct (dict_get "issues" data) as [v0|] eqn:H0; [| done].
    injection Hv as <-. apply repaired_well_formed; [done |].
    intros Hbad. apply Hok. right. by exists v0.
Qed.

Lemma normalize_fixed data :
  (∀ v, dict_get "claims" data = Some v → well_formed_list number_truthy v) →
  (∀ v, dict_get "issues" data = Some v → well_formed_list number_truthy v) →
  _normalize_claims number_truthy py_repr data = Some data.
Proof.
  intros Hc Hi. rewrite normalize_as_repairs.
  rewrite (repair_key_well_formed "claims" _ data Hc). cbn [mbind option_bind].
  by apply repair_key_well_formed.
Qed.

(** X10. The repair raises exactly when the value under "claims" or the
    value under "issues" is [True] or a number other than zero: these pass
    the truth test and cannot be looped over.  Every other value, of
    whatever shape, is accepted. *)
Theorem normalize_claims_raises_iff data :
  _normalize_claims number_truthy py_repr data = None ↔
  (∃ v, dict_get "claims" data = Some v ∧ not_iterable number_truthy v)
  ∨ (∃ v, dict_get "issues" data = Some v ∧ not_iterable number_truthy v).
Proof. apply normalize_none_iff. Qed.

(** X11. The repair neither adds, removes nor reorders keys, and it
    touches no value but those under "claims" and "issues". *)
Theorem normalize_claims_frame data data' :
  _normalize_claims number_truthy py_repr data = Some data' →
  data'.*1 = data.*1
  ∧ ∀ k, k ≠ "claims" → k ≠ "issues" → dict_get k data' = dict_get k data.
Proof. intros (Hk & _ & _ & Hf)%normalize_some. by split. Qed.

(** X12. After the repair the value under "claims", and the value under
    "issues", is either falsy or a list all of whose entries are dicts. *)
Theorem normalize_claims_entries_are_dicts data data' :
  _normalize_claims number_truthy py_repr data = Some data' →
  (∀ v, dict_get "claims" data' = Some v → well_formed_list number_truthy v)
  ∧ (∀ v, dict_get "issues" data' = Some v → well_formed_list number_truthy v).
Proof. apply normalize_entries. Qed.

(** X13. Data whose claims and issues are already lists of dicts, or are
    falsy or missing, come back unchanged. *)
Theorem normalize_claims_keeps_well_formed data :
  (∀ v, dict_get "claims" data = Some v → well_formed_list number_truthy v) →
  (∀ v, dict_get "issues" data = Some v → well_formed_list number_truthy v) →
  _normalize_claims number_truthy py_repr data = Some data.
Proof. apply normalize_fixed. Qed.

(** X14. The repair is idempotent: run on its own result, it returns this
    result. *)
Theorem normalize_claims_idempotent data data' :
  _normalize_claims number_truthy py_repr data = Some data' → _normalize_claims number_truthy py_repr data' = Some data'.
Proof. intros [Hc Hi]%normalize_entries. by apply normalize_fixed. Qed.

(** X15. When the claims are a list, the repaired list has the same
    length; at each place a dict is kept as it is, and any other entry is
    replaced by a claim with that entry, as [str] prints it, for raw
    text, of type OTHER_CLAIM and severity medium. *)
Theorem normalize_claims_list data data' (cs : list (JSON number)) :
  dict_get "claims" data = Some (JList cs) →
  _normalize_claims number_truthy py_repr data = Some data' →
  ∃ cs', dict_get "claims" data' = Some (JList cs')
         ∧ length cs' = length cs
         ∧ ∀ i c, cs !! i = Some c →
             cs' !! i = Some (if is_dict c then c
                              else JDict [ ("raw_text", JStr (py_str py_repr c));
                                           ("normalized_type", JStr "OTHER_CLAIM");
                                           ("risk_keywords", JList []);
                                           ("evidence_hint", JStr "");
                                           ("severity", JStr "medium") ]).
Proof.
  intros Hget (_ & Hc & _)%normalize_some. rewrite Hget in Hc.
  exists ((λ c, if is_dict c then c else default_claim py_repr c) <$> cs).
  split; [| split].
  - rewrite Hc. cbn. unfold repaired. cbn. by destruct cs.
  - by rewrite length_fmap.
  - intros i c Hi. by rewrite list_lookup_fmap, Hi.
Qed.

(** X16. Claims given as one string, not as a list, are not taken as one
    claim: each character of the string becomes a claim of its own.
    Likewise claims given as one object become one claim for each of its
    keys. *)
Theorem normalize_claims_splits_string data data' :
  _normalize_claims number_truthy py_repr data = Some data' →
  (∀ s, dict_get "claims" data = Some (JStr s) → s ≠ "" →
     dict_get "claims" data'
     = Some (JList ((λ ch, default_claim py_repr (JStr ch)) <$> string_chars s)))
  ∧ (∀ kv, dict_get "claims" data = Some (JDict kv) → kv ≠ [] →
     dict_get "claims" data'
     = Some (JList ((λ key, default_claim py_repr (JStr key)) <$> kv.*1))).
Proof.
  intros (_ & Hc & _)%normalize_some. split.
  - intros s Hget Hs. rewrite Hc, Hget. cbn. unfold repaired. cbn.
    destruct (String.eqb_spec s ""); [done |]. cbn. by rewrite <- list_fmap_compose.
  - intros kv Hget Hkv. rewrite Hc, Hget. cbn. unfold repaired. cbn.
    destruct kv; [done |]. cbn [truthy]. by rewrite <- !list_fmap_compose.
Qed.

End NormalizeClaims.

Example normalize_sample :
  _normalize_claims Z_truthy no_repr sample_data = Some sample_data_repaired.
Proof. reflexivity. Qed.

Lemma normalize_claims_frame_witness :
  sample_data_repaired.*1 = sample_data.*1
  ∧ ∀ k, k ≠ "claims" → k ≠ "issues" →
         dict_get k sample_data_repaired = dict_get k sample_data.
Proof. apply (normalize_claims_frame Z_truthy no_repr). reflexivity. Defined.

Lemma normalize_claims_entries_are_dicts_witness :
  (∀ v, dict_get "claims" sample_data_repaired = Some v → well_formed_list Z_truthy v)
  ∧ (∀ v, dict_get "issues" sample_data_repaired = Some v → well_formed_list Z_truthy v).
Proof.
  apply (normalize_claims_entries_are_dicts Z_truthy no_repr sample_data). reflexivity.
Defined.

Lemma normalize_claims_keeps_well_formed_witness :
  _normalize_claims Z_truthy no_repr sample_data_repaired = Some sample_data_repaired.
Proof.
  apply normalize_claims_keeps_well_formed.
  - intros v [= <-]. right. eexists. split; [done |]. by repeat constructor.
  - intros v [= <-]. right. eexists. split; [done |]. by repeat constructor.
Defined.

Lemma normalize_claims_idempotent_witness :
  _normalize_claims Z_truthy no_repr sample_data_repaired = Some sample_data_repaired.
Proof. apply (normalize_claims_idempotent Z_truthy no_repr sample_data). reflexivity. Defined.

Lemma normalize_claims_list_witness :
  ∃ cs', dict_get "claims" sample_data_repaired = Some (JList cs') ∧ length cs' = 2%nat.
Proof.
  destruct (normalize_claims_list Z_truthy no_repr sample_data sample_data_repaired
              _ eq_refl eq_refl) as (cs' & Hget & Hlen & _).
  by exists cs'.
Defined.

Lemma normalize_claims_splits_string_witness :
  ∃ data', _normalize_claims Z_truthy no_repr sample_data_flat = Some data'
           ∧ dict_get "claims" data'
             = Some (JList (default_claim no_repr <$> [JStr "S"; JStr "a"; JStr "f"; JStr "e"])).
Proof.
  eexists. split; [reflexivity |].
  apply (proj1 (normalize_claims_splits_string Z_truthy no_repr sample_data_flat _ eq_refl)
           "Safe" eq_refl).
  discriminate.
Defined.

(** ** The provider configuration *)

Section Provider.

Example client_samples :
  get_client env_groq = Some (mkOpenAI "gsk_live_1234" (Some GROQ_BASE))
  ∧ get_model env_groq = "llama-3.1-8b-instant"
  ∧ get_client env_placeholder = None
  ∧ get_model env_placeholder = "gpt-4o-mini"
  ∧ get_client ∅ = None.
Proof. by repeat split. Qed.

Lemma is_space_lower_char (c : ascii) : is_space (lower_char c) = is_space c.
Proof. by destruct c as [[] [] [] [] [] [] [] []]. Qed.

Lemma lower_char_idem (c : ascii) : lower_char (lower_char c) = lower_char c.
Proof. by destruct c as [[] [] [] [] [] [] [] []]. Qed.

Lemma lower_idem (s : string) : lower (lower s) = lower s.
Proof. induction s as [|c s IH]; [done |]. cbn [lower]. by rewrite lower_char_idem, IH. Qed.

Lemma lower_lstrip (s : string) : lstrip (lower s) = lower (lstrip s).
Proof.
  induction s as [|c s IH]; [done |].
  cbn [lower lstrip]. rewrite is_space_lower_char. by destruct (is_space c).
Qed.

Lemma lower_rstrip (s : string) : rstrip (lower s) = lower (rstrip s).
Proof.
  induction s as [|c s IH]; [done |].
  cbn [lower rstrip]. rewrite IH, is_space_lower_char.
  destruct (rstrip s); cbn [lower]; [| done]. by destruct (is_space c).
Qed.

(** Lowering and stripping commute: [s.lower().strip()], as the risk step
    writes it, and [s.strip().lower()], as the client does, are the same. *)
Lemma lower_strip (s : string) : strip (lower s) = lower (strip s).
Proof. unfold strip. by rewrite lower_lstrip, lower_rstrip. Qed.

Lemma lower_empty (s : string) : lower s = "" ↔ s = "".
Proof. by destruct s. Qed.

Lemma str_or_nonempty (s d : string) : s ≠ "" → str_or s d = s.
Proof. by destruct s. Qed.

(** The client and the model depend on the environment through the two
    provider tests and the five variables they read. *)
Lemma config_ext (env1 env2 : gmap string string) :
  let provider env := lower (strip (opt_or (env !! "LLM_PROVIDER") "openai")) in
  String.eqb (provider env1) "groq" = String.eqb (provider env2) "groq" →
  String.eqb (provider env1) "ollama" = String.eqb (provider env2) "ollama" →
  (∀ k, k ≠ "LLM_PROVIDER" → env1 !! k = env2 !! k) →
  get_client env1 = get_client env2 ∧ get_model env1 = get_model env2.
Proof.
  intros provider Hg Ho Hk. unfold get_client, get_model, getenv, getenv_default.
  subst provider. cbv beta in Hg, Ho. rewrite Hg, Ho.
  by rewrite !(Hk "GROQ_API_KEY"), !(Hk "OPENAI_API_KEY"), !(Hk "GROQ_MODEL"),
    !(Hk "OLLAMA_MODEL"), !(Hk "OPENAI_MODEL").
Qed.

Lemma provider_lower (v : string) :
  lower (strip (str_or (lower v) "openai")) = lower (strip (str_or v "openai")).
Proof.
  destruct (decide (v = "")) as [-> | Hv]; [done |].
  rewrite !str_or_nonempty; [| done | by rewrite lower_empty].
  by rewrite lower_strip, lower_idem.
Qed.

Lemma provider_strip (v x : string) :
  x = "groq" ∨ x = "ollama" →
  String.eqb (lower (strip (str_or (strip v) "openai"))) x
  = String.eqb (lower (strip (str_or v "openai"))) x.
Proof.
  intros Hx. destruct (decide (v = "")) as [-> | Hv]; [done |].
  rewrite (str_or_nonempty v) by done.
  destruct (decide (strip v = "")) as [-> | Hs].
  - by destruct Hx as [-> | ->].
  - by rewrite str_or_nonempty, strip_idem.
Qed.

(** X17. The provider is matched without regard to letter case or to
    whitespace around it: lowering or trimming the value of LLM_PROVIDER
    changes neither the client nor the model.  An empty value counts as
    no value. *)
Theorem provider_case_and_space_insensitive (env : gmap string string) (v : string) :
  let set x := <["LLM_PROVIDER" := x]> env in
  (get_client (set (lower v)) = get_client (set v)
   ∧ get_model (set (lower v)) = get_model (set v))
  ∧ (get_client (set (strip v)) = get_client (set v)
     ∧ get_model (set (strip v)) = get_model (set v))
  ∧ (get_client (set "") = get_client (delete "LLM_PROVIDER" env)
     ∧ get_model (set "") = get_model (delete "LLM_PROVIDER" env)).
Proof.
  intros set. subst set. split; [| split]; apply config_ext;
    rewrite ?lookup_insert_eq, ?lookup_delete_eq; cbn [opt_or];
    rewrite ?provider_lower, ?provider_strip by auto; try done;
    intros k Hk; by rewrite ?lookup_insert_ne, ?lookup_delete_ne.
Qed.

(** X18. A client, when one is returned, is set up for the provider whose
    model [get_model] names, and its key is never empty nor a placeholder:
    for Groq it is the value of GROQ_API_KEY and does not start with
    gsk_REPLACE, for OpenAI the value of OPENAI_API_KEY and does not start
    with sk-REPLACE, for Ollama the fixed word ollama. *)
Theorem client_matches_model (env : gmap string string) (c : OpenAI) :
  get_client env = Some c →
  api_key c ≠ ""
  ∧ ((base_url c = Some GROQ_BASE
      ∧ env !! "GROQ_API_KEY" = Some (api_key c)
      ∧ startswith "gsk_REPLACE" (api_key c) = false
      ∧ get_model env = default "llama-3.1-8b-instant" (env !! "GROQ_MODEL"))
     ∨ (base_url c = Some OLLAMA_BASE
        ∧ api_key c = "ollama"
        ∧ get_model env = default "llama3.2" (env !! "OLLAMA_MODEL"))
     ∨ (base_url c = None
        ∧ env !! "OPENAI_API_KEY" = Some (api_key c)
        ∧ startswith "sk-REPLACE" (api_key c) = false
        ∧ get_model env = default "gpt-4o-mini" (env !! "OPENAI_MODEL"))).
Proof.
  unfold get_client, get_model, getenv, getenv_default.
  destruct (String.eqb _ "groq"); [| destruct (String.eqb _ "ollama")].
  - destruct (env !! "GROQ_API_KEY") as [[|a k]|];
      cbn [not_key key_startswith orb default]; try done.
    destruct (startswith _ _) eqn:Hp; [done |]. intros [= <-].
    cbn [api_key base_url]. split; [done |]. by left.
  - intros [= <-]. cbn [api_key base_url]. split; [done |]. right. by left.
  - destruct (env !! "OPENAI_API_KEY") as [[|a k]|];
      cbn [not_key key_startswith orb default]; try done.
    destruct (startswith _ _) eqn:Hp; [done |]. intros [= <-].
    cbn [api_key base_url]. split; [done |]. right. by right.
Qed.

End Provider.

Lemma client_matches_model_witness :
  api_key (mkOpenAI "gsk_live_1234" (Some GROQ_BASE)) ≠ ""
  ∧ ((base_url (mkOpenAI "gsk_live_1234" (Some GROQ_BASE)) = Some GROQ_BASE
      ∧ env_groq !! "GROQ_API_KEY" = Some (api_key (mkOpenAI "gsk_live_1234" (Some GROQ_BASE)))
      ∧ startswith "gsk_REPLACE" (api_key (mkOpenAI "gsk_live_1234" (Some GROQ_BASE))) = false
      ∧ get_model env_groq = default "llama-3.1-8b-instant" (env_groq !! "GROQ_MODEL"))
     ∨ (base_url (mkOpenAI "gsk_live_1234" (Some GROQ_BASE)) = Some OLLAMA_BASE
        ∧ api_key (mkOpenAI "gsk_live_1234" (Some GROQ_BASE)) = "ollama"
        ∧ get_model env_groq = default "llama3.2" (env_groq !! "OLLAMA_MODEL"))
     ∨ (base_url (mkOpenAI "gsk_live_1234" (Some GROQ_BASE)) = None
        ∧ env_groq !! "OPENAI_API_KEY" = Some (api_key (mkOpenAI "gsk_live_1234" (Some GROQ_BASE)))
        ∧ startswith "sk-REPLACE" (api_key (mkOpenAI "gsk_live_1234" (Some GROQ_BASE))) = false
        ∧ get_model env_groq = default "gpt-4o-mini" (env_groq !! "OPENAI_MODEL"))).
Proof. apply (client_matches_model env_groq). reflexivity. Defined.

(** ** Further properties of the classifier *)

Section Classifier.

Lemma decision_of_mono (p1 p2 p3 p4 p5 q1 q2 q3 q4 q5 : bool) :
  (p1 → q1) → (p2 → q2) → (p3 → q3) → (p4 → q4) → (p5 → q5) →
  let d := decision_of p1 p2 p3 p4 p5 in
  let e := decision_of q1 q2 q3 q4 q5 in
  ReviewDecision.risk_flags d `sublist_of` ReviewDecision.risk_flags e
  ∧ (Level_rank (ReviewDecision.risk_level d) ≤ Level_rank (ReviewDecision.risk_level e))%nat
  ∧ (ReviewDecision.requires_quality_review d → ReviewDecision.requires_quality_review e)
  ∧ (ReviewDecision.requires_legal_review d → ReviewDecision.requires_legal_review e)
  ∧ (ReviewDecision.requires_licensing_review d → ReviewDecision.requires_licensing_review e)
  ∧ (ReviewDecision.requires_sustainability_review d
     → ReviewDecision.requires_sustainability_review e)
  ∧ (ReviewDecision.human_approval_required d → ReviewDecision.human_approval_required e).
Proof.
  intros H1 H2 H3 H4 H5 d e. subst d e.
  destruct p1, q1; try (by exfalso; apply H1);
  destruct p2, q2; try (by exfalso; apply H2);
  destruct p3, q3; try (by exfalso; apply H3);
  destruct p4, q4; try (by exfalso; apply H4);
  destruct p5, q5; try (by exfalso; apply H5);
  cbn; (split; [repeat constructor |]); (split; [lia |]); by repeat split.
Qed.

Lemma bool_impl (p q : bool) : (p = true → q = true) → p → q.
Proof. destruct p, q; intros H; try done. by specialize (H eq_refl). Qed.

(** X19. Adding claims, materials or issues to a brief, or marking it
    licensed, never takes anything back: every flag raised before is still
    raised, in the same order, the risk level does not go down, and every
    review and approval required before is still required. *)
Theorem classify_risk_monotone (brief1 brief2 : ExtractedBrief) :
  age_grade brief1 = age_grade brief2 →
  (licensed brief1 = true → licensed brief2 = true) →
  claims brief1 ⊆ claims brief2 →
  materials brief1 ⊆ materials brief2 →
  issues brief1 ⊆ issues brief2 →
  let d1 := classify_risk brief1 in
  let d2 := classify_risk brief2 in
  ReviewDecision.risk_flags d1 `sublist_of` ReviewDecision.risk_flags d2
  ∧ (Level_rank (ReviewDecision.risk_level d1) ≤ Level_rank (ReviewDecision.risk_level d2))%nat
  ∧ (ReviewDecision.requires_quality_review d1 → ReviewDecision.requires_quality_review d2)
  ∧ (ReviewDecision.requires_legal_review d1 → ReviewDecision.requires_legal_review d2)
  ∧ (ReviewDecision.requires_licensing_review d1
     → ReviewDecision.requires_licensing_review d2)
  ∧ (ReviewDecision.requires_sustainability_review d1
     → ReviewDecision.requires_sustainability_review d2)
  ∧ (ReviewDecision.human_approval_required d1 → ReviewDecision.human_approval_required d2).
Proof.
  intros Hage Hlic Hclaims Hmat Hiss d1 d2. subst d1 d2.
  rewrite !classify_risk_closed. unfold predicates_decision.
  apply decision_of_mono; apply bool_impl.
  - by rewrite Hage.
  - done.
  - rewrite !claims_need_evidence_spec. intros (c & Hc & Hn). exists c. split; [| done].
    by apply Hclaims.
  - rewrite !plastic_present_spec. intros (m & Hm & Hp). exists m. split; [| done].
    by apply Hmat.
  - rewrite !high_severity_issues_spec. intros (i & Hi & Hs). exists i. split; [| done].
    by apply Hiss.
Qed.

Lemma bool_eq_iff (p q : bool) : (p = true ↔ q = true) → p = q.
Proof.
  destruct p, q; intros [H1 H2]; try done.
  - by specialize (H1 eq_refl).
  - by specialize (H2 eq_refl).
Qed.

(** X20. The decision does not depend on the order in which claims,
    materials and issues are listed, nor on how often one is repeated: two
    briefs with the same age grade and licence mark and the same claims,
    materials and issues as sets get the same decision. *)
Theorem classify_risk_order_independent (brief1 brief2 : ExtractedBrief) :
  age_grade brief1 = age_grade brief2 →
  licensed brief1 = licensed brief2 →
  (∀ c, c ∈ claims brief1 ↔ c ∈ claims brief2) →
  (∀ m, m ∈ materials brief1 ↔ m ∈ materials brief2) →
  (∀ i, i ∈ issues brief1 ↔ i ∈ issues brief2) →
  classify_risk brief1 = classify_risk brief2.
Proof.
  intros Hage Hlic Hclaims Hmat Hiss.
  rewrite !classify_risk_closed. unfold predicates_decision.
  rewrite Hage, Hlic. f_equal; apply bool_eq_iff.
  - rewrite !claims_need_evidence_spec. by setoid_rewrite Hclaims.
  - rewrite !plastic_present_spec. by setoid_rewrite Hmat.
  - rewrite !high_severity_issues_spec. by setoid_rewrite Hiss.
Qed.

Lemma age_under_3_lower (s : string) : _age_under_3 (lower s) = _age_under_3 s.
Proof. unfold _age_under_3. by rewrite !or_empty_id, lower_idem. Qed.

Lemma age_under_3_strip (s : string) : _age_under_3 (strip s) = _age_under_3 s.
Proof.
  unfold _age_under_3. by rewrite !or_empty_id, <- !lower_strip, strip_idem.
Qed.

Lemma plastic_present_fmap (f : string → string) (ms : list string) :
  (∀ m, strip (lower (f m)) = strip (lower m)) →
  _plastic_present (f <$> ms) = _plastic_present ms.
Proof.
  intros Hf. unfold _plastic_present.
  induction ms as [|m ms IH]; [done |].
  rewrite fmap_cons. cbn [existsb]. by rewrite IH, !or_empty_id, Hf.
Qed.

(** X21. Letter case and surrounding whitespace in the age grade and in the
    materials do not matter: lowering them, or trimming them, leaves the
    decision as it is. *)
Theorem classify_risk_case_and_space_insensitive (brief : ExtractedBrief) :
  classify_risk (with_materials (with_age_grade brief (lower (age_grade brief)))
                   (lower <$> materials brief))
  = classify_risk brief
  ∧ classify_risk (with_materials (with_age_grade brief (strip (age_grade brief)))
                     (strip <$> materials brief))
    = classify_risk brief.
Proof.
  rewrite !classify_risk_closed. unfold predicates_decision, with_materials, with_age_grade.
  cbn [age_grade licensed claims materials issues].
  rewrite age_under_3_lower, age_under_3_strip.
  rewrite (plastic_present_fmap lower), (plastic_present_fmap strip); [done | |].
  - intros m. by rewrite <- lower_strip, strip_idem.
  - intros m. by rewrite lower_idem.
Qed.

End Classifier.

Lemma classify_risk_monotone_witness :
  ReviewDecision.risk_flags (classify_risk brief_plastics)
    `sublist_of`
    ReviewDecision.risk_flags
      (classify_risk (with_materials brief_plastics ["plastics"; "pvc"]))
  ∧ (Level_rank (ReviewDecision.risk_level (classify_risk brief_plastics))
     ≤ Level_rank (ReviewDecision.risk_level
                     (classify_risk (with_materials brief_plastics ["plastics"; "pvc"]))))%nat.
Proof.
  destruct (classify_risk_monotone brief_plastics
              (with_materials brief_plastics ["plastics"; "pvc"])) as (H1 & H2 & _).
  - reflexivity.
  - discriminate.
  - done.
  - intros m Hm. apply list_elem_of_singleton in Hm as ->. apply list_elem_of_here.
  - done.
  - by split.
Defined.

Lemma classify_risk_order_independent_witness :
  classify_risk brief_medium
  = classify_risk (with_materials brief_medium ["blister"; "cardboard"; "plastic"; "plastic"]).
Proof.
  apply classify_risk_order_independent; try reflexivity; try done.
  intros m. cbn [materials with_materials brief_medium].
  rewrite !elem_of_cons, elem_of_nil. tauto.
Defined.

(** ** Runs of a call, and calls on objects that may lack data *)

Section Runs.

Example raw_samples :
  classify_risk_raw raw_absent
  = Ok (ReviewDecision.mk false false false true ["plastic_present"] medium
          ["Plastic/PVC/blister: sustainability review recommended."] false)
  ∧ classify_risk_raw raw_no_claims = Raise TypeError
  ∧ classify_risk_raw raw_none_before_high = Raise AttributeError
  ∧ ∃ d, classify_risk_raw raw_none_after_high = Ok d
         ∧ ReviewDecision.risk_flags d = ["claims_need_evidence"].
Proof. repeat split. by eexists. Qed.

Lemma in_slots (rt : Runtime) (t : string) :
  runtime_ok rt →
  in_list t (legal_claim_types_slots rt) = bool_decide (t ∈ LEGAL_CLAIM_TYPES).
Proof.
  intros Hrt. unfold runtime_ok in Hrt. apply bool_eq_iff.
  rewrite in_list_spec, bool_decide_eq_true, Hrt. apply elem_of_elements.
Qed.

Lemma claims_need_evidence_on_any (rt : Runtime) (cs : list ClaimObject) :
  runtime_ok rt → _claims_need_evidence_on rt cs = _claims_need_evidence cs.
Proof.
  intros Hrt. induction cs as [|c cs IH]; [done |].
  cbn [_claims_need_evidence_on _claims_need_evidence]. by rewrite in_slots, IH.
Qed.

(** A step does not change where the run ends. *)
Lemma step_run_from (rt : Runtime) (brief : ExtractedBrief) (c c' : Pc * Locals) :
  runtime_ok rt → step rt brief c c' → run_from brief c' = run_from brief c.
Proof.
  intros Hrt Hstep.
  destruct Hstep as [st H|st H|st H|st H|st H|st H|st H|st H|st H|st H];
    try rewrite (claims_need_evidence_on_any rt _ Hrt) in H;
    cbn [run_from];
    unfold step_under_3, step_licensed, step_claims, step_plastic, step_issues;
    by rewrite H.
Qed.

Lemma returns_unique (rt : Runtime) (brief : ExtractedBrief) (c : Pc * Locals)
    (d : ReviewDecision) :
  runtime_ok rt → returns rt brief c d → d = finish (run_from brief c).
Proof.
  intros Hrt Hret. induction Hret as [st | c c' d Hstep _ IH]; [done |].
  by rewrite IH, (step_run_from rt brief c c' Hrt Hstep).
Qed.

Lemma returns_from_issues (rt : Runtime) (brief : ExtractedBrief) (st : Locals) :
  returns rt brief (pc_issues, st) (finish (run_from brief (pc_issues, st))).
Proof.
  cbn [run_from]. unfold step_issues.
  destruct (truthy (issues brief) && _high_severity_issues (issues brief)) eqn:H;
    eapply returns_after;
    [by apply step_issues_taken | apply returns_here
    |by apply step_issues_skipped | apply returns_here].
Qed.

Lemma returns_from_plastic (rt : Runtime) (brief : ExtractedBrief) (st : Locals) :
  returns rt brief (pc_plastic, st) (finish (run_from brief (pc_plastic, st))).
Proof.
  cbn [run_from]. unfold step_plastic.
  destruct (_plastic_present (materials brief)) eqn:H;
    eapply returns_after;
    [by apply step_plastic_taken | apply returns_from_issues
    |by apply step_plastic_skipped | apply returns_from_issues].
Qed.

Lemma returns_from_claims (rt : Runtime) (brief : ExtractedBrief) (st : Locals) :
  runtime_ok rt →
  returns rt brief (pc_claims, st) (finish (run_from brief (pc_claims, st))).
Proof.
  intros Hrt. cbn [run_from]. unfold step_claims.
  rewrite <- (claims_need_evidence_on_any rt _ Hrt).
  destruct (_claims_need_evidence_on rt (claims brief)) eqn:H;
    eapply returns_after;
    [by apply step_claims_taken | apply returns_from_plastic
    |by apply step_claims_skipped | apply returns_from_plastic].
Qed.

Lemma returns_from_licensed (rt : Runtime) (brief : ExtractedBrief) (st : Locals) :
  runtime_ok rt →
  returns rt brief (pc_licensed, st) (finish (run_from brief (pc_licensed, st))).
Proof.
  intros Hrt. cbn [run_from]. unfold step_licensed.
  destruct (licensed brief) eqn:H;
    eapply returns_after;
    [by apply step_licensed_taken | by apply returns_from_claims
    |by apply step_licensed_skipped | by apply returns_from_claims].
Qed.

Lemma returns_from_start (rt : Runtime) (brief : ExtractedBrief) :
  runtime_ok rt → call rt brief (classify_risk brief).
Proof.
  intros Hrt. unfold call, classify_risk, run_steps, step_under_3.
  destruct (_age_under_3 (age_grade brief)) eqn:H;
    eapply returns_after;
    [by apply step_under_3_taken | by apply returns_from_licensed
    |by apply step_under_3_skipped | by apply returns_from_licensed].
Qed.

(** C8. A call returns, and two calls on equal briefs return identical
    decisions: the same flags in the same order, the same routing notes,
    the same four booleans, the same risk level and the same approval
    requirement.  This holds from one run of the interpreter to the next,
    whatever order the set of legal claim types holds its members in, and
    whichever way a run goes through the five blocks. *)
Theorem C8_deterministic_runs (rt1 rt2 : Runtime) (brief1 brief2 : ExtractedBrief) :
  runtime_ok rt1 → runtime_ok rt2 → brief1 = brief2 →
  call rt1 brief1 (classify_risk brief1)
  ∧ ∀ d1 d2 : ReviewDecision,
      call rt1 brief1 d1 → call rt2 brief2 d2 →
      d1 = d2
      ∧ ReviewDecision.risk_flags d1 = ReviewDecision.risk_flags d2
      ∧ ReviewDecision.routing_notes d1 = ReviewDecision.routing_notes d2
      ∧ ReviewDecision.requires_quality_review d1
        = ReviewDecision.requires_quality_review d2
      ∧ ReviewDecision.requires_legal_review d1 = ReviewDecision.requires_legal_review d2
      ∧ ReviewDecision.requires_licensing_review d1
        = ReviewDecision.requires_licensing_review d2
      ∧ ReviewDecision.requires_sustainability_review d1
        = ReviewDecision.requires_sustainability_review d2
      ∧ ReviewDecision.risk_level d1 = ReviewDecision.risk_level d2
      ∧ ReviewDecision.human_approval_required d1
        = ReviewDecision.human_approval_required d2.
Proof.
  intros Hrt1 Hrt2 <-. split; [by apply returns_from_start |].
  intros d1 d2 H1 H2.
  apply (returns_unique rt1 brief1 _ _ Hrt1) in H1.
  apply (returns_unique rt2 brief1 _ _ Hrt2) in H2.
  rewrite H1, H2. by repeat split.
Qed.

Lemma str_or_empty (s : string) : str_or s "" = or_empty s.
Proof. by destruct s. Qed.

Lemma opt_eqb_level (l : Level) : opt_eqb (Some (Level_str l)) "high" = bool_decide (l = high).
Proof. by destruct l. Qed.

Lemma age_under_3_raw_of (ag : string) : _age_under_3_raw (Some ag) = Ok (_age_under_3 ag).
Proof. unfold _age_under_3_raw, _age_under_3. cbn [opt_or]. by rewrite str_or_empty. Qed.

Lemma plastic_present_raw_of (ms : list string) :
  _plastic_present_raw (Some (Some <$> ms)) = Ok (_plastic_present ms).
Proof.
  unfold _plastic_present_raw, _plastic_present. cbn. f_equal.
  induction ms as [|m ms IH]; [done |].
  rewrite fmap_cons. cbn [existsb opt_or]. by rewrite IH, str_or_empty.
Qed.

Lemma claims_loop_raw_of (cs : list ClaimObject) :
  claims_loop_raw
    ((λ c, Some (mkRawClaim (Some (ClaimObject.normalized_type c))
                            (Some (Level_str (ClaimObject.severity c))))) <$> cs)
  = Ok (_claims_need_evidence cs).
Proof.
  induction cs as [|c cs IH]; [done |].
  rewrite fmap_cons. cbn [claims_loop_raw _claims_need_evidence py_attr mbind PyResult_bind
                          raw_normalized_type raw_claim_severity opt_in_legal].
  rewrite opt_eqb_level, IH.
  by destruct (bool_decide (ClaimObject.normalized_type c ∈ LEGAL_CLAIM_TYPES)),
    (bool_decide (ClaimObject.severity c = high)).
Qed.

Lemma any_high_raw_of (issues : list Issue) :
  any_high_raw ((λ i, Some (mkRawIssue (Some (Level_str (Issue.severity i))))) <$> issues)
  = Ok (_high_severity_issues issues).
Proof.
  unfold _high_severity_issues. induction issues as [|i rest IH]; [done |].
  rewrite fmap_cons. cbn [any_high_raw py_attr mbind PyResult_bind raw_issue_severity existsb].
  rewrite opt_eqb_level, IH. by destruct (bool_decide (Issue.severity i = high)).
Qed.

Lemma classify_risk_raw_of (brief : ExtractedBrief) :
  classify_risk_raw (raw_of brief) = Ok (classify_risk brief).
Proof.
  unfold classify_risk_raw, raw_of.
  cbn [raw_age_grade raw_licensed raw_claims raw_materials raw_issues].
  rewrite age_under_3_raw_of, plastic_present_raw_of.
  unfold _claims_need_evidence_raw, _high_severity_issues_raw.
  cbn [py_items mbind PyResult_bind opt_true default opt_truthy].
  rewrite claims_loop_raw_of, any_high_raw_of.
  unfold classify_risk, run_steps, step_issues, step_plastic, step_claims, step_licensed,
    step_under_3.
  destruct (issues brief) as [|i rest]; [done |].
  rewrite fmap_cons. by cbn [truthy andb].
Qed.

(** C9. On every brief of the declared shape the call returns a decision
    and raises nothing, also when the age grade is empty and the lists of
    claims, materials and issues are empty; the decision is the one
    [classify_risk] gives.  Missing data only leaves the corresponding flag
    out: an empty age grade raises no under_3, an empty list of claims no
    claims_need_evidence, an empty list of materials no plastic_present, an
    empty list of issues no high_severity_issues; and the brief with all
    four empty gets the decision that depends on the licensed field
    alone. *)
Theorem C9_total_on_well_formed (brief : ExtractedBrief) :
  ∃ d : ReviewDecision,
    classify_risk_raw (raw_of brief) = Ok d
    ∧ d = classify_risk brief
    ∧ (age_grade brief = "" →
         ("under_3" ∉ ReviewDecision.risk_flags d)
         ∧ ReviewDecision.requires_quality_review d = false)
    ∧ (claims brief = [] →
         ("claims_need_evidence" ∉ ReviewDecision.risk_flags d)
         ∧ ReviewDecision.requires_legal_review d = false)
    ∧ (materials brief = [] →
         ("plastic_present" ∉ ReviewDecision.risk_flags d)
         ∧ ReviewDecision.requires_sustainability_review d = false)
    ∧ (issues brief = [] → "high_severity_issues" ∉ ReviewDecision.risk_flags d)
    ∧ (age_grade brief = "" → claims brief = [] → materials brief = [] →
       issues brief = [] →
         d = if licensed brief
             then ReviewDecision.mk false false true false ["licensed_brand"] high
                    ["Licensed product: licensing review required."] true
             else decision_no_flags).
Proof.
  exists (classify_risk brief).
  split; [apply classify_risk_raw_of |]. split; [done |].
  rewrite flag_under_3, flag_claims_need_evidence, flag_plastic_present,
    flag_high_severity_issues, quality_is_under_3, legal_is_claims,
    sustainability_is_plastic.
  split; [intros ->; split; [discriminate | reflexivity] |].
  split; [intros ->; split; [discriminate | reflexivity] |].
  split; [intros ->; split; [discriminate | reflexivity] |].
  split; [intros ->; discriminate |].
  intros Hage Hclaims Hmat Hiss. rewrite classify_risk_closed.
  unfold predicates_decision. rewrite Hage, Hclaims, Hmat, Hiss.
  by destruct (licensed brief).
Qed.

End Runs.

Lemma C8_deterministic_runs_witness :
  call runtime_a brief_high (classify_risk brief_high)
  ∧ ∀ d1 d2 : ReviewDecision,
      call runtime_a brief_high d1 → call runtime_b brief_high d2 → d1 = d2.
Proof.
  assert (runtime_ok runtime_a) as Ha by (apply (bool_decide_unpack _); by vm_compute).
  assert (runtime_ok runtime_b) as Hb by (apply (bool_decide_unpack _); by vm_compute).
  destruct (C8_deterministic_runs runtime_a runtime_b brief_high brief_high Ha Hb eq_refl)
    as [Hcall Hsame].
  split; [exact Hcall |]. intros d1 d2 H1 H2. apply (Hsame d1 d2 H1 H2).
Defined.

Lemma C9_total_on_well_formed_witness :
  classify_risk_raw (raw_of brief_empty) = Ok decision_no_flags.
Proof.
  destruct (C9_total_on_well_formed brief_empty) as (d & Hok & _ & _ & _ & _ & _ & Hempty).
  rewrite Hok. f_equal. by apply Hempty.
Defined.
